(** * AeonG storage/v2: the edge accessor over the delta chain

    A shallow embedding of [src/storage/v2/edge_accessor.cpp] (and of the
    constructor of [VertexAccessor] in [src/storage/v2/vertex_accessor.hpp])
    together with the properties of the versioned-object core that the
    design document states about it.

    Conventions of the embedding:
    - [uint64_t] identifiers and timestamps are [N]; they are only compared,
      never used in arithmetic, so no wrap-around is involved;
    - raw pointers are addresses ([Ptr]); the pointees an operation touches
      (the edge behind [edge_.ptr], the transaction behind [transaction_])
      are threaded through a state, and the shared atomic timestamp cells
      are read from a store [cells];
    - the delta chain ([Edge::delta] followed through [Delta::next]) is a
      list, newest first; [nullptr] is the empty list;
    - [std::map<PropertyId, PropertyValue>] is a [gmap];
    - program order of the lock, the chain walk and the writes is recorded
      in a trace of events. *)

From stdpp Require Import gmap strings list fin_maps sorting.

Set Default Proof Using "Type".

(** ** Identifiers and values *)

Abbreviation Ptr := N (only parsing).
Abbreviation Gid := N (only parsing).
Abbreviation PropertyId := N (only parsing).
Abbreviation EdgeTypeId := N (only parsing).

(** [storage::PropertyValue] is a tagged union.  Only its [Null] tag is ever
    inspected by the edge accessor ([IsNull]); doubles are kept as their bit
    pattern and temporal data is left out. *)
#[warnings="-register-all"]
Inductive PropertyValue : Type :=
  | PVNull
  | PVBool (b : bool)
  | PVInt (i : Z)
  | PVDouble (bits : Z)
  | PVString (s : string)
  | PVList (l : list PropertyValue)
  | PVMap (m : list (string * PropertyValue)).

Definition IsNull (v : PropertyValue) : bool :=
  match v with PVNull => true | _ => false end.

Abbreviation PropertyMap := (gmap N PropertyValue) (only parsing).

(** ** [PropertyStore] *)

Module PropertyStore.

(** Modelled from the spec: [PropertyStore] (storage/v2/property_store.hpp)
    is not among the sources.  The design document treats the physical
    encoding as opaque and uses "only its map-like contract
    (get/set/clear/enumerate by key)", where a null prior value "denotes
    did not exist": a key is present exactly when it holds a non-null
    value. *)
Definition GetProperty (ps : PropertyMap) (property : PropertyId) : PropertyValue :=
  default PVNull (ps !! property).

(** Modelled from the spec: see [GetProperty]; setting a key to the null
    value makes it absent. *)
Definition SetProperty (property : PropertyId) (value : PropertyValue)
    (ps : PropertyMap) : PropertyMap :=
  if IsNull value then delete property ps else <[property := value]> ps.

(** Modelled from the spec: enumerate by key. *)
Definition Properties (ps : PropertyMap) : PropertyMap := ps.

(** Modelled from the spec: clear. *)
Definition ClearProperties (ps : PropertyMap) : PropertyMap := ∅.

End PropertyStore.

(** Iteration over a [std::map] visits the keys in ascending order. *)
Definition key_le (x y : N * PropertyValue) : Prop := (x.1 <= y.1)%N.

Global Instance key_le_dec : RelDecision key_le.
Proof. intros x y. unfold key_le. apply _. Defined.

Global Instance key_le_total : Total key_le.
Proof. intros x y. unfold key_le. lia. Qed.

Definition map_items (m : PropertyMap) : list (N * PropertyValue) :=
  merge_sort key_le (map_to_list m).

(** ** Deltas, edges, transactions *)

Inductive Action : Type :=
  | ADD_LABEL
  | REMOVE_LABEL
  | SET_PROPERTY
  | ADD_IN_EDGE
  | ADD_OUT_EDGE
  | REMOVE_IN_EDGE
  | REMOVE_OUT_EDGE
  | RECREATE_OBJECT
  | DELETE_OBJECT.

Inductive View : Type := OLD | NEW.

Inductive Error : Type :=
  | SERIALIZATION_ERROR
  | NONEXISTENT_OBJECT
  | DELETED_OBJECT
  | PROPERTIES_DISABLED.

Inductive Result (A : Type) : Type :=
  | Ok (a : A)
  | Err (e : Error).
Arguments Ok {A} a.
Arguments Err {A} e.

(** A [Delta], with the members the accessor reads or writes.
    [property_key]/[property_value] are the [property] member of the payload
    union, meaningful for [SET_PROPERTY]; [timestamp] is the pointer to the
    timestamp cell shared with the creating transaction; the [next] link is
    the tail of the list the delta sits in.  The members [from_gid],
    [to_gid] and [transaction_st] carry the prefix [d_] to keep them apart
    from those of [Edge]. *)
Record Delta : Type := mkDelta {
  action : Action;
  property_key : PropertyId;
  property_value : PropertyValue;
  timestamp : Ptr;
  d_from_gid : Gid;
  d_to_gid : Gid;
  d_transaction_st : N;
}.

(** The [Edge] record as the accessor uses it (its declaration,
    storage/v2/edge.hpp, is not among the sources).  [num] is the write-count
    of the anchor bookkeeping; its width is not known here and it is kept as
    an unbounded integer, as is the threshold [AnchorNum] it is compared
    with. *)
Record Edge : Type := mkEdge {
  gid : Gid;
  properties : PropertyMap;
  deleted : bool;
  delta : list Delta;
  from_gid : Gid;
  to_gid : Gid;
  transaction_st : N;
  num : Z;
}.

(** A change-notification record ([prinfEdge]). *)
Record prinfEdge : Type := mkPrinfEdge {
  pe_edge_type : EdgeTypeId;
  pe_gid : N;
  pe_from_gid : N;
  pe_to_gid : N;
  pe_ts : N;
  pe_properties : PropertyMap;
}.

Record Transaction : Type := mkTransaction {
  transaction_id : N;
  start_timestamp : N;
  commit_timestamp : Ptr;
  gid_anchor_edge_ : gmap (N * N) (gmap N PropertyValue);
  prinfEdge_ : list prinfEdge;
}.

(** [Config::Items], the two members the edge accessor reads. *)
Record Items : Type := mkItems {
  properties_on_edges : bool;
  AnchorNum : Z;
}.

(** ** Accessors *)

Record VertexAccessor : Type := mkVertexAccessor {
  vertex_ : Ptr;
  v_transaction_ : Ptr;
  v_indices_ : Ptr;
  v_constraints_ : Ptr;
  v_config_ : Items;
  v_for_deleted_ : bool;
}.

(** The constructor of vertex_accessor.hpp, lines 35-42; the last parameter
    has the default argument [false], so a call site may leave it out
    ([None]). *)
Definition VertexAccessor_new (vertex transaction indices constraints : Ptr)
    (config : Items) (for_deleted : option bool) : VertexAccessor :=
  {| vertex_ := vertex;
     v_transaction_ := transaction;
     v_indices_ := indices;
     v_constraints_ := constraints;
     v_config_ := config;
     v_for_deleted_ := default false for_deleted |}.

Record EdgeAccessor : Type := mkEdgeAccessor {
  edge_ : Ptr;
  edge_type_ : EdgeTypeId;
  from_vertex_ : Ptr;
  to_vertex_ : Ptr;
  transaction_ : Ptr;
  indices_ : Ptr;
  constraints_ : Ptr;
  config_ : Items;
  for_deleted_ : bool;
}.

Definition FromVertex (ea : EdgeAccessor) : VertexAccessor :=
  VertexAccessor_new (from_vertex_ ea) (transaction_ ea) (indices_ ea)
    (constraints_ ea) (config_ ea) None.

Definition ToVertex (ea : EdgeAccessor) : VertexAccessor :=
  VertexAccessor_new (to_vertex_ ea) (transaction_ ea) (indices_ ea)
    (constraints_ ea) (config_ ea) None.

(** ** Vertices and the inline members of [VertexAccessor] *)

(** The [Vertex] record as the inline members of vertex_accessor.hpp and
    [get_transaction_st] use it (its declaration, storage/v2/vertex.hpp, is
    not among the sources).  An entry of [in_edges]/[out_edges] is the
    tuple (edge type, vertex pointer, edge reference). *)
Record Vertex : Type := mkVertex {
  v_gid : Gid;
  v_properties : PropertyMap;
  v_deleted : bool;
  v_delta : list Delta;
  v_transaction_st : N;
  in_edges : list (EdgeTypeId * Ptr * Ptr);
  out_edges : list (EdgeTypeId * Ptr * Ptr);
}.

(** The members below dereference [vertex_]; [vertices] is the memory the
    pointer is looked up in. *)

(** vertex_accessor.hpp, line 139. *)
Definition VertexAccessor_Gid (vertices : Ptr -> Vertex) (va : VertexAccessor) : Gid :=
  v_gid (vertices (vertex_ va)).

(** Lines 141-143: [operator==] compares the vertex and the transaction. *)
Definition VertexAccessor_eq (va other : VertexAccessor) : bool :=
  (vertex_ va =? vertex_ other)%N && (v_transaction_ va =? v_transaction_ other)%N.

(** Line 144: [operator!=]. *)
Definition VertexAccessor_neq (va other : VertexAccessor) : bool :=
  negb (VertexAccessor_eq va other).

(** Lines 165-169: [std::hash<storage::VertexAccessor>]. *)
Definition VertexAccessor_hash (vertices : Ptr -> Vertex) (va : VertexAccessor) : N :=
  VertexAccessor_Gid vertices va.

(** Line 93. *)
Definition getProperties (vertices : Ptr -> Vertex) (va : VertexAccessor) : PropertyMap :=
  PropertyStore.Properties (v_properties (vertices (vertex_ va))).

(** Line 94. *)
Definition VertexAccessor_transaction_st (vertices : Ptr -> Vertex)
    (va : VertexAccessor) : N :=
  v_transaction_st (vertices (vertex_ va)).

(** Line 97: [(uint64_t)std::numeric_limits<int64_t>::max()]. *)
Definition tt_te (va : VertexAccessor) : N := (2 ^ 63 - 1)%N.

(** Lines 99-101. *)
Definition hasdelete (vertices : Ptr -> Vertex) (va : VertexAccessor) : bool :=
  v_deleted (vertices (vertex_ va)).

(** Lines 103-105. *)
Definition getTTts (vertices : Ptr -> Vertex) (va : VertexAccessor) : N :=
  v_transaction_st (vertices (vertex_ va)).

(** Lines 107-113. *)
Definition getInEdges (vertices : Ptr -> Vertex) (va : VertexAccessor)
    : list (EdgeTypeId * Ptr * Ptr) :=
  in_edges (vertices (vertex_ va)).

Definition getOutEdges (vertices : Ptr -> Vertex) (va : VertexAccessor)
    : list (EdgeTypeId * Ptr * Ptr) :=
  out_edges (vertices (vertex_ va)).

(** ** Effects: state, errors and the event trace *)

Inductive Event : Type :=
  | EvLock                      (* lock_guard on edge_.ptr->lock constructed *)
  | EvUnlock                    (* ... and destroyed at the end of its scope *)
  | EvSnapshot                  (* a reader copies the live state and the head *)
  | EvCallback (d : Delta)      (* the resolver hands a delta to the visitor *)
  | EvLinkDelta (d : Delta)     (* CreateAndLinkDelta *)
  | EvSetLive (k : PropertyId)  (* edge_.ptr->properties.SetProperty *)
  | EvClearLive                 (* edge_.ptr->properties.ClearProperties *)
  | EvCout (ts tid : N).        (* the diagnostic written to std::cout *)

Record St : Type := mkSt {
  st_edge : Edge;
  st_tx : Transaction;
  st_trace : list Event;
}.

Definition M (A : Type) : Type := St -> Result A * St.

Definition ret {A} (a : A) : M A := fun s => (Ok a, s).

(** [return Error::...;] *)
Definition fail {A} (e : Error) : M A := fun s => (Err e, s).

Definition bind {A B} (m : M A) (k : A -> M B) : M B :=
  fun s =>
    match m s with
    | (Ok a, s') => k a s'
    | (Err e, s') => (Err e, s')
    end.

Declare Scope acc_scope.
Delimit Scope acc_scope with acc.
Notation "x <- c1 ;; c2" := (bind c1 (fun x => c2))
  (at level 100, c1 at next level, right associativity) : acc_scope.
Notation "c1 ;; c2" := (bind c1 (fun _ => c2))
  (at level 100, right associativity) : acc_scope.
Open Scope acc_scope.

Definition get_edge : M Edge := fun s => (Ok (st_edge s), s).
Definition get_tx : M Transaction := fun s => (Ok (st_tx s), s).

Definition put_edge (e : Edge) : M unit :=
  fun s => (Ok tt, {| st_edge := e; st_tx := st_tx s; st_trace := st_trace s |}).

Definition put_tx (t : Transaction) : M unit :=
  fun s => (Ok tt, {| st_edge := st_edge s; st_tx := t; st_trace := st_trace s |}).

Definition log (evs : list Event) (s : St) : St :=
  {| st_edge := st_edge s; st_tx := st_tx s; st_trace := st_trace s ++ evs |}.

Definition emit (ev : Event) : M unit := fun s => (Ok tt, log [ev] s).

Definition emit_all (evs : list Event) : M unit := fun s => (Ok tt, log evs s).

(** [std::lock_guard<utils::SpinLock> guard(edge_.ptr->lock);] followed by
    the rest of its scope: the lock is released when the scope is left, on
    an early [return] too. *)
Definition lock_guard {A} (body : M A) : M A :=
  fun s =>
    let '(r, s') := body (log [EvLock] s) in
    (r, log [EvUnlock] s').

(** Field updates ([edge_.ptr->f = v], [delta->f = v]). *)
Definition set_num (n : Z) (e : Edge) : Edge :=
  mkEdge (gid e) (properties e) (deleted e) (delta e) (from_gid e) (to_gid e)
    (transaction_st e) n.

Definition set_properties (ps : PropertyMap) (e : Edge) : Edge :=
  mkEdge (gid e) ps (deleted e) (delta e) (from_gid e) (to_gid e)
    (transaction_st e) (num e).

Definition set_delta (ds : list Delta) (e : Edge) : Edge :=
  mkEdge (gid e) (properties e) (deleted e) ds (from_gid e) (to_gid e)
    (transaction_st e) (num e).

Definition set_gid_anchor_edge_ (a : gmap (N * N) (gmap N PropertyValue))
    (t : Transaction) : Transaction :=
  mkTransaction (transaction_id t) (start_timestamp t) (commit_timestamp t) a
    (prinfEdge_ t).

Definition set_prinfEdge_ (l : list prinfEdge) (t : Transaction) : Transaction :=
  mkTransaction (transaction_id t) (start_timestamp t) (commit_timestamp t)
    (gid_anchor_edge_ t) l.

Definition set_endpoints_and_st (f t : Gid) (ts : N) (d : Delta) : Delta :=
  mkDelta (action d) (property_key d) (property_value d) (timestamp d) f t ts.

(** An assignment through the pointer returned by [CreateAndLinkDelta]: that
    pointer is the chain head. *)
Definition assign_head (f : Delta -> Delta) : M unit :=
  e <- get_edge ;;
  match delta e with
  | d :: next => put_edge (set_delta (f d :: next) e)
  | [] => ret tt
  end.

(** [for (const auto &x : l) body(x);] *)
Fixpoint foreach {A} (l : list A) (body : A -> M unit) : M unit :=
  match l with
  | [] => ret tt
  | x :: l' => body x ;; foreach l' body
  end.

(** ** Calls of the two writes, as data *)

Inductive WriteOp : Type :=
  | OpSetProperty (property : PropertyId) (value : PropertyValue)
  | OpClearProperties.

(** One write: the timestamp cells as they are when it runs, the accessor
    (whose [transaction_] points to the calling transaction), and the
    operation. *)
Record WriteCall : Type := mkWriteCall {
  w_cells : Ptr -> N;
  w_accessor : EdgeAccessor;
  w_op : WriteOp;
}.

(** One edge and the transactions that write to it, by address. *)
Record World : Type := mkWorld {
  world_edge : Edge;
  world_txs : gmap N Transaction;
}.

(** ** Concrete data for the examples *)

Module Sample.

(** A threshold to run the examples with: the top bit of a [uint64_t]. *)
Definition kTransactionInitialId : N := 2 ^ 63.

(** Modelled from the spec: a horizon test to run the examples with.
    A delta is in the past of a viewer when it was committed before the
    viewer started and, for the view [NEW], also when it is one of the
    viewer's own writes ("OLD: state as of the transaction's start,
    excluding its own uncommitted writes; NEW: [...] including the
    transaction's own uncommitted writes"). *)
Definition in_past (cells : Ptr -> N) (transaction : Transaction)
    (view : View) (d : Delta) : bool :=
  let ts := cells (timestamp d) in
  (ts <? start_timestamp transaction)%N
  || (match view with NEW => (ts =? transaction_id transaction)%N | OLD => false end).

(** Timestamp cells: cell 1 holds the commit timestamp 5, cell 2 the id of
    a running transaction T1, cell 3 the id of a running transaction T2. *)
Definition T1 : N := kTransactionInitialId + 1.
Definition T2 : N := kTransactionInitialId + 2.

Definition cells (p : Ptr) : N :=
  match p with
  | 1%N => 5%N
  | 2%N => T1
  | 3%N => T2
  | _ => 0%N
  end.

(** Transaction T2: started at 6, still running, nothing archived. *)
Definition tx2 : Transaction := mkTransaction T2 6 3 ∅ [].

Definition on (anchor_num : Z) : Items := mkItems true anchor_num.
Definition off : Items := mkItems false 3.

Definition accessor (config : Items) (for_deleted : bool) : EdgeAccessor :=
  mkEdgeAccessor 100 7 200 201 300 400 500 config for_deleted.

Definition a : PropertyId := 1%N.
Definition b : PropertyId := 2%N.

(** Deltas of the transaction that committed at 5 (cell 1) and of T1
    (cell 2). *)
Definition committed_delta (act : Action) (k : PropertyId) (v : PropertyValue) : Delta :=
  mkDelta act k v 1 10 11 4.
Definition t1_delta (act : Action) (k : PropertyId) (v : PropertyValue) : Delta :=
  mkDelta act k v 2 10 11 5.

(** Edge 42 from vertex 10 to vertex 11 with properties {a: 1, b: "x"}. *)
Definition props : gmap N PropertyValue :=
  <[a := PVInt 1]> (<[b := PVString "x"]> ∅).

Definition edge (chain : list Delta) (is_deleted : bool) (count : Z) : Edge :=
  mkEdge 42 props is_deleted chain 10 11 3 count.

Definition st (e : Edge) : St := mkSt e tx2 [].

(** The edge while T1 holds its head: T1 has set [a], which had no value. *)
Definition pending_t1 : Edge := edge [t1_delta SET_PROPERTY a PVNull] false 0.

(** The edge after the transaction that set [a] has committed at 5. *)
Definition committed_at_5 : Edge :=
  edge [committed_delta SET_PROPERTY a PVNull] false 0.

(** The edge as T1 has just created it: the undo of a creation is a
    [DELETE_OBJECT] delta. *)
Definition created_by_t1 : Edge := edge [t1_delta DELETE_OBJECT 0 PVNull] false 0.

(** The edge without any delta. *)
Definition no_delta : Edge := edge [] false 0.

(** Four writes by three transactions, each transaction starting after the
    one before has committed: T2 (at address 300, cell 3, commits at 7)
    clears the properties and sets [a], T3 (at 301, cell 4, commits at 8)
    sets [b], T4 (at 302, cell 5) sets [a]. *)
Definition T3 : N := kTransactionInitialId + 3.
Definition T4 : N := kTransactionInitialId + 4.

Definition cells_after_t2 (p : Ptr) : N :=
  match p with
  | 3%N => 7%N
  | 4%N => T3
  | _ => cells p
  end.

Definition cells_after_t3 (p : Ptr) : N :=
  match p with
  | 4%N => 8%N
  | 5%N => T4
  | _ => cells_after_t2 p
  end.

Definition tx3 : Transaction := mkTransaction T3 8 4 ∅ [].
Definition tx4 : Transaction := mkTransaction T4 9 5 ∅ [].

Definition accessor_of (transaction : Ptr) (config : Items) : EdgeAccessor :=
  mkEdgeAccessor 100 7 200 201 transaction 400 500 config false.

Definition world : World :=
  mkWorld committed_at_5 (<[300%N := tx2]> (<[301%N := tx3]> (<[302%N := tx4]> ∅))).

Definition four_writes : list WriteCall :=
  [ mkWriteCall cells (accessor_of 300 (on 2)) OpClearProperties;
    mkWriteCall cells (accessor_of 300 (on 2)) (OpSetProperty a (PVInt 9));
    mkWriteCall cells_after_t2 (accessor_of 301 (on 2))
      (OpSetProperty b (PVBool true));
    mkWriteCall cells_after_t3 (accessor_of 302 (on 2))
      (OpSetProperty a (PVInt 7)) ].

(** Transaction T1: started at 6, still running (cell 2 holds its id). *)
Definition tx1 : Transaction := mkTransaction T1 6 2 ∅ [].

(** The committed edge, deleted. *)
Definition deleted_edge : Edge :=
  edge [committed_delta SET_PROPERTY a PVNull] true 0.

(** The edge while T2 holds its head, with the write-count at 1. *)
Definition pending_t2 : Edge :=
  edge [mkDelta SET_PROPERTY a PVNull 3 10 11 5] false 1.

(** An edge without properties, created by the transaction that committed
    at 5. *)
Definition bare : Edge :=
  mkEdge 42 ∅ false [committed_delta DELETE_OBJECT 0 PVNull] 10 11 3 0.

(** The world after a first capture: the count is 1 and the archives are
    empty again; and two writes over committed heads. *)
Definition counted_once : World :=
  mkWorld (edge [committed_delta SET_PROPERTY a PVNull] false 1)
    (<[300%N := tx2]> (<[301%N := tx3]> ∅)).

Definition two_writes : list WriteCall :=
  [ mkWriteCall cells (accessor_of 300 (on 2)) (OpSetProperty a (PVInt 9));
    mkWriteCall cells_after_t2 (accessor_of 301 (on 2))
      (OpSetProperty b (PVBool true)) ].

(** Vertex 10: T1 has added an out-edge to it; before that its property [a]
    was set by the transaction that committed at 5. *)
Definition vertex : Vertex :=
  mkVertex 10 props false
    [t1_delta ADD_OUT_EDGE 0 PVNull; committed_delta SET_PROPERTY a PVNull]
    3 [] [(7%N, 201%N, 100%N)].

(** A vertex with the chain and the [transaction_st] of [committed_at_5]. *)
Definition vertex_like_edge : Vertex :=
  mkVertex 10 props false (delta committed_at_5) 3 [] [].

End Sample.

(** ** The operations of the edge accessor *)

Section EdgeAccessor.

(** Declared outside the sources at hand and taken as parameters:
    the threshold [kTransactionInitialId] that separates commit timestamps
    from transaction ids, and the process-wide switches [AnchorFlag] and
    [prinfFlag]. *)
Variable kTransactionInitialId : N.
Variables AnchorFlag prinfFlag : bool.

(** The horizon test of the resolver, also declared in mvcc.hpp: whether a
    delta's change already belongs to the state the viewer asks for, so
    that the walk stops at it.  The first argument is the contents of the
    timestamp cells.  The properties below hold for every such test. *)
Variable in_past : (Ptr -> N) -> Transaction -> View -> Delta -> bool.

(** Every operation takes [cells], the contents of the shared timestamp
    cells when it runs ([timestamp->load(std::memory_order_acquire)]). *)

(** Modelled from the spec: [ApplyDeltasForRead] (storage/v2/mvcc.hpp) is
    not among the sources.  "For each Delta starting at the head": decide
    whether it is in the past relative to the requested view; if so the
    walk terminates, otherwise the delta is handed to the caller-supplied
    visitor and the walk moves to the next delta; it also terminates at the
    chain end. *)
Fixpoint ApplyDeltasForRead {S : Type} (cells : Ptr -> N)
    (transaction : Transaction) (delta : list Delta) (view : View)
    (callback : Delta -> S -> S) (s : S) : S :=
  match delta with
  | [] => s
  | d :: next =>
      if in_past cells transaction view d then s
      else ApplyDeltasForRead cells transaction next view callback (callback d s)
  end.

(** The deltas that walk hands to the visitor, in walk order. *)
Fixpoint applicable (cells : Ptr -> N) (transaction : Transaction)
    (delta : list Delta) (view : View) : list Delta :=
  match delta with
  | [] => []
  | d :: next =>
      if in_past cells transaction view d then []
      else d :: applicable cells transaction next view
  end.

(** Modelled from the spec: [PrepareForWrite] (storage/v2/mvcc.hpp) is not
    among the sources.  The write validator of the design document: no head
    delta, permitted; head uncommitted and equal to the requesting
    transaction's id, permitted; head uncommitted and of a different
    transaction, rejected; head committed, permitted. *)
Definition PrepareForWrite (cells : Ptr -> N) (transaction : Transaction)
    (object : Edge) : bool :=
  match delta object with
  | [] => true
  | head :: _ =>
      let ts := cells (timestamp head) in
      if (kTransactionInitialId <=? ts)%N
      then (ts =? transaction_id transaction)%N
      else true
  end.

(** Modelled from the spec: [CreateAndLinkDelta] (storage/v2/mvcc.hpp) is
    not among the sources.  It creates a delta with the given payload whose
    timestamp cell is the one shared by the transaction, and links it at
    the chain head; the former head becomes its [next].  The endpoint ids
    and [transaction_st] of the new delta are assigned by the caller. *)
Definition CreateAndLinkDelta (act : Action) (key : PropertyId)
    (value : PropertyValue) : M unit :=
  transaction <- get_tx ;;
  object <- get_edge ;;
  let d := mkDelta act key value (commit_timestamp transaction) 0%N 0%N 0%N in
  emit (EvLinkDelta d) ;;
  put_edge (set_delta (d :: delta object) object).

(** edge_accessor.cpp, lines 104-132 and again, verbatim, lines 168-196:
    the timestamp [ts] of the version being overwritten, the second
    conflict check, the anchor bookkeeping, and the local [printf]. *)
Definition write_bookkeeping (cells : Ptr -> N) (ea : EdgeAccessor) : M (N * bool) :=
  e <- get_edge ;;
  transaction <- get_tx ;;
  let ts := transaction_st e in
  match delta e with
  | before_delta :: _ =>
      let ts := cells (timestamp before_delta) in
      if (kTransactionInitialId <=? ts)%N then
        if (ts =? transaction_id transaction)%N then
          ret (d_transaction_st before_delta, false)
        else
          emit (EvCout ts (transaction_id transaction)) ;;
          fail SERIALIZATION_ERROR
      else
        put_edge (set_num (num e + 1) e) ;;
        e <- get_edge ;;
        (if (AnchorNum (config_ ea) <? num e)%Z then
           put_edge (set_num 1 e) ;;
           if AnchorFlag then
             e <- get_edge ;;
             let maybe_properties := PropertyStore.Properties (properties e) in
             put_tx (set_gid_anchor_edge_
                       (<[(gid e, ts) := maybe_properties]>
                          (gid_anchor_edge_ transaction)) transaction)
           else ret tt
         else ret tt) ;;
        ret (ts, true)
  | [] => ret (ts, true)
  end.

(** Lines 133-139 and 197-203: the change notification. *)
Definition notify (ea : EdgeAccessor) (ts : N) (printf : bool) : M unit :=
  if prinfFlag && printf then
    e <- get_edge ;;
    transaction <- get_tx ;;
    let maybe_properties := PropertyStore.Properties (properties e) in
    let prinfEdges :=
      mkPrinfEdge (edge_type_ ea) (gid e) (from_gid e) (to_gid e) ts
        maybe_properties in
    put_tx (set_prinfEdge_ (prinfEdge_ transaction ++ [prinfEdges]) transaction)
  else ret tt.

(** Lines 149-153 and 208-212: create the undo delta for one key and fill
    in its endpoint ids and [transaction_st]. *)
Definition link_undo (ts : N) (key : PropertyId) (value : PropertyValue) : M unit :=
  CreateAndLinkDelta SET_PROPERTY key value ;;
  e <- get_edge ;;
  assign_head (set_endpoints_and_st (from_gid e) (to_gid e) ts).

Definition SetProperty (cells : Ptr -> N) (ea : EdgeAccessor)
    (property : PropertyId) (value : PropertyValue) : M PropertyValue :=
  if negb (properties_on_edges (config_ ea)) then fail PROPERTIES_DISABLED else
  lock_guard (
    e <- get_edge ;;
    transaction <- get_tx ;;
    if negb (PrepareForWrite cells transaction e) then fail SERIALIZATION_ERROR else
    if deleted e then fail DELETED_OBJECT else
    p <- write_bookkeeping cells ea ;;
    let '(ts, printf) := p in
    notify ea ts printf ;;
    e <- get_edge ;;
    let current_value := PropertyStore.GetProperty (properties e) property in
    link_undo ts property current_value ;;
    e <- get_edge ;;
    emit (EvSetLive property) ;;
    put_edge (set_properties
                (PropertyStore.SetProperty property value (properties e)) e) ;;
    ret current_value).

Definition ClearProperties (cells : Ptr -> N) (ea : EdgeAccessor) : M PropertyMap :=
  if negb (properties_on_edges (config_ ea)) then fail PROPERTIES_DISABLED else
  lock_guard (
    e <- get_edge ;;
    transaction <- get_tx ;;
    if negb (PrepareForWrite cells transaction e) then fail SERIALIZATION_ERROR else
    if deleted e then fail DELETED_OBJECT else
    p <- write_bookkeeping cells ea ;;
    let '(ts, printf) := p in
    notify ea ts printf ;;
    e <- get_edge ;;
    let properties_ := PropertyStore.Properties (properties e) in
    foreach (map_items properties_)
      (fun property => link_undo ts property.1 property.2) ;;
    e <- get_edge ;;
    emit EvClearLive ;;
    put_edge (set_properties (PropertyStore.ClearProperties (properties e)) e) ;;
    ret properties_).

(** *** Reads *)

(** The visitor of [IsVisible] (lines 33-52) on its captured locals
    [(exists, deleted)]. *)
Definition IsVisible_callback (d : Delta) (s : bool * bool) : bool * bool :=
  let '(exists_, deleted_) := s in
  match action d with
  | ADD_LABEL | REMOVE_LABEL | SET_PROPERTY
  | ADD_IN_EDGE | ADD_OUT_EDGE | REMOVE_IN_EDGE | REMOVE_OUT_EDGE =>
      (exists_, deleted_)
  | RECREATE_OBJECT => (exists_, false)
  | DELETE_OBJECT => (false, deleted_)
  end.

Definition IsVisible (cells : Ptr -> N) (ea : EdgeAccessor) (view : View) : M bool :=
  p <- lock_guard (
         emit EvSnapshot ;;
         e <- get_edge ;;
         ret (deleted e, delta e)) ;;
  let '(deleted_, delta_) := p in
  transaction <- get_tx ;;
  emit_all (map EvCallback (applicable cells transaction delta_ view)) ;;
  let '(exists_, deleted_) :=
    ApplyDeltasForRead cells transaction delta_ view IsVisible_callback
      (true, deleted_) in
  ret (exists_ && (for_deleted_ ea || negb deleted_)).

(** The visitor of [GetProperty] (lines 232-256) on its captured locals
    [(exists, deleted, value)]. *)
Definition GetProperty_callback (property : PropertyId) (d : Delta)
    (s : bool * bool * PropertyValue) : bool * bool * PropertyValue :=
  let '(exists_, deleted_, value) := s in
  match action d with
  | SET_PROPERTY =>
      if (property_key d =? property)%N
      then (exists_, deleted_, property_value d)
      else (exists_, deleted_, value)
  | DELETE_OBJECT => (false, deleted_, value)
  | RECREATE_OBJECT => (exists_, false, value)
  | ADD_LABEL | REMOVE_LABEL
  | ADD_IN_EDGE | ADD_OUT_EDGE | REMOVE_IN_EDGE | REMOVE_OUT_EDGE =>
      (exists_, deleted_, value)
  end.

Definition GetProperty (cells : Ptr -> N) (ea : EdgeAccessor)
    (property : PropertyId) (view : View) : M PropertyValue :=
  if negb (properties_on_edges (config_ ea)) then ret PVNull else
  p <- lock_guard (
         emit EvSnapshot ;;
         e <- get_edge ;;
         ret (deleted e, PropertyStore.GetProperty (properties e) property, delta e)) ;;
  let '(deleted_, value, delta_) := p in
  transaction <- get_tx ;;
  emit_all (map EvCallback (applicable cells transaction delta_ view)) ;;
  let '(exists_, deleted_, value) :=
    ApplyDeltasForRead cells transaction delta_ view
      (GetProperty_callback property) (true, deleted_, value) in
  if negb exists_ then fail NONEXISTENT_OBJECT else
  if negb (for_deleted_ ea) && deleted_ then fail DELETED_OBJECT else
  ret value.

(** The visitor of [Properties] (lines 274-307) on its captured locals
    [(exists, deleted, properties)]. *)
Definition Properties_callback (d : Delta)
    (s : bool * bool * gmap N PropertyValue) : bool * bool * gmap N PropertyValue :=
  let '(exists_, deleted_, properties_) := s in
  match action d with
  | SET_PROPERTY =>
      match properties_ !! property_key d with
      | Some _ =>
          if IsNull (property_value d)
          then (exists_, deleted_, delete (property_key d) properties_)
          else (exists_, deleted_,
                <[property_key d := property_value d]> properties_)
      | None =>
          if negb (IsNull (property_value d))
          then (exists_, deleted_,
                <[property_key d := property_value d]> properties_)
          else (exists_, deleted_, properties_)
      end
  | DELETE_OBJECT => (false, deleted_, properties_)
  | RECREATE_OBJECT => (exists_, false, properties_)
  | ADD_LABEL | REMOVE_LABEL
  | ADD_IN_EDGE | ADD_OUT_EDGE | REMOVE_IN_EDGE | REMOVE_OUT_EDGE =>
      (exists_, deleted_, properties_)
  end.

Definition Properties (cells : Ptr -> N) (ea : EdgeAccessor) (view : View)
    : M PropertyMap :=
  if negb (properties_on_edges (config_ ea)) then ret ∅ else
  p <- lock_guard (
         emit EvSnapshot ;;
         e <- get_edge ;;
         ret (deleted e, PropertyStore.Properties (properties e), delta e)) ;;
  let '(deleted_, properties_, delta_) := p in
  transaction <- get_tx ;;
  emit_all (map EvCallback (applicable cells transaction delta_ view)) ;;
  let '(exists_, deleted_, properties_) :=
    ApplyDeltasForRead cells transaction delta_ view
      Properties_callback (true, deleted_, properties_) in
  if negb exists_ then fail NONEXISTENT_OBJECT else
  if negb (for_deleted_ ea) && deleted_ then fail DELETED_OBJECT else
  ret properties_.

(** *** Sequences of writes over committed heads *)

Definition run_op (cells : Ptr -> N) (ea : EdgeAccessor) (op : WriteOp) : M unit :=
  match op with
  | OpSetProperty property value => SetProperty cells ea property value ;; ret tt
  | OpClearProperties => ClearProperties cells ea ;; ret tt
  end.

Definition head_committed (cells : Ptr -> N) (e : Edge) : bool :=
  match delta e with
  | head :: _ => (cells (timestamp head) <? kTransactionInitialId)%N
  | [] => false
  end.

(** One call: the accessor's transaction is looked up, the operation runs
    on the edge and that transaction, and both are stored back.  A failing
    call, or one through a dangling [transaction_], ends the run. *)
Definition run_call (c : WriteCall) (w : World) : option World :=
  match world_txs w !! transaction_ (w_accessor c) with
  | Some t =>
      match run_op (w_cells c) (w_accessor c) (w_op c) (mkSt (world_edge w) t []) with
      | (Ok _, s') =>
          Some (mkWorld (st_edge s')
                  (<[transaction_ (w_accessor c) := st_tx s']> (world_txs w)))
      | (Err _, _) => None
      end
  | None => None
  end.

(** Runs the calls one after the other; returns the world they leave and the
    number of calls that found a committed head delta. *)
Fixpoint run_calls (cs : list WriteCall) (w : World) : option (World * nat) :=
  match cs with
  | [] => Some (w, 0)
  | c :: cs' =>
      match run_call c w with
      | Some w1 =>
          match run_calls cs' w1 with
          | Some (w2, k) =>
              Some (w2, (if head_committed (w_cells c) (world_edge w) then 1 else 0) + k)
          | None => None
          end
      | None => None
      end
  end.

(** The number of snapshots held by the archives of the transactions. *)
Definition snapshots (txs : gmap N Transaction) : nat :=
  sum_list_with (fun pt => size (gid_anchor_edge_ pt.2)) (map_to_list txs).

(** No archive holds a snapshot; exactly one archive holds exactly one. *)
Definition no_snapshot (txs : gmap N Transaction) : Prop :=
  map_Forall (fun _ t => gid_anchor_edge_ t = ∅) txs.

Definition one_snapshot (txs : gmap N Transaction) : Prop :=
  exists p t, txs !! p = Some t
    /\ size (gid_anchor_edge_ t) = 1
    /\ no_snapshot (delete p txs).

(** The state of the cadence after [k] writes over committed heads, for a
    threshold [n]: up to [n] of them the count is [k] and nothing has been
    captured; at [n + 1] the count is 1 and one snapshot has been captured. *)
Definition cadence (n : Z) (k : nat) (w : World) : Prop :=
  if decide (Z.of_nat k <= n)%Z
  then num (world_edge w) = Z.of_nat k /\ no_snapshot (world_txs w)
  else num (world_edge w) = 1%Z /\ one_snapshot (world_txs w).

(** *** The statements of the design document, in its own words *)

(** Undoing a [SET_PROPERTY] delta on a property map: the key is set back
    to the prior value (inserted if absent), or removed when the prior
    value is null. *)
Definition undo_property (d : Delta) (m : gmap N PropertyValue) : gmap N PropertyValue :=
  if IsNull (property_value d)
  then delete (property_key d) m
  else <[property_key d := property_value d]> m.

(** The replay of a list of deltas on [(exists, deleted, state)], where
    [undo] folds a [SET_PROPERTY] delta into the state. *)
Definition replay_step {S : Type} (undo : Delta -> S -> S)
    (s : bool * bool * S) (d : Delta) : bool * bool * S :=
  let '(exists_, deleted_, x) := s in
  match action d with
  | SET_PROPERTY => (exists_, deleted_, undo d x)
  | DELETE_OBJECT => (false, deleted_, x)
  | RECREATE_OBJECT => (exists_, false, x)
  | _ => (exists_, deleted_, x)
  end.

Definition replay {S : Type} (undo : Delta -> S -> S) (ds : list Delta)
    (deleted_ : bool) (x : S) : bool * bool * S :=
  fold_left (replay_step undo) ds (true, deleted_, x).

(** Undoing a [SET_PROPERTY] delta on the value of one key. *)
Definition undo_value (property : PropertyId) (d : Delta) (v : PropertyValue)
    : PropertyValue :=
  if (property_key d =? property)%N then property_value d else v.

(** How a read turns the outcome of the replay into its result. *)
Definition read_result {S : Type} (for_deleted : bool) (r : bool * bool * S)
    : Result S :=
  let '(exists_, deleted_, x) := r in
  if negb exists_ then Err NONEXISTENT_OBJECT
  else if negb for_deleted && deleted_ then Err DELETED_OBJECT
  else Ok x.

Definition is_lifecycle (d : Delta) : bool :=
  match action d with
  | DELETE_OBJECT | RECREATE_OBJECT => true
  | _ => false
  end.

(** The timestamp a write stores in the [transaction_st] of its deltas
    (the local [ts] of lines 104-116). *)
Definition overwritten_ts (cells : Ptr -> N) (e : Edge) : N :=
  match delta e with
  | [] => transaction_st e
  | head :: _ =>
      let ts := cells (timestamp head) in
      if (kTransactionInitialId <=? ts)%N then d_transaction_st head else ts
  end.

(** The undo delta a write links for key [k] with prior value [v]. *)
Definition undo_delta (cells : Ptr -> N) (transaction : Transaction) (e : Edge)
    (k : PropertyId) (v : PropertyValue) : Delta :=
  mkDelta SET_PROPERTY k v (commit_timestamp transaction) (from_gid e) (to_gid e)
    (overwritten_ts cells e).

(** The closed form of lines 104-139 on a write that passes the
    validator: the write-count and the archive after the anchor
    bookkeeping, the local [printf], and the transaction after the change
    notification. *)
Definition head_ts (cells : Ptr -> N) (e : Edge) : N :=
  match delta e with
  | head :: _ => cells (timestamp head)
  | [] => 0%N
  end.

Definition counted (ea : EdgeAccessor) (e : Edge) : Z :=
  if (AnchorNum (config_ ea) <? num e + 1)%Z then 1%Z else (num e + 1)%Z.

Definition bookkept_edge (cells : Ptr -> N) (ea : EdgeAccessor) (e : Edge) : Edge :=
  if head_committed cells e then set_num (counted ea e) e else e.

Definition bookkept_tx (cells : Ptr -> N) (ea : EdgeAccessor) (e : Edge)
    (t : Transaction) : Transaction :=
  if head_committed cells e && (AnchorNum (config_ ea) <? num e + 1)%Z && AnchorFlag
  then set_gid_anchor_edge_
         (<[(gid e, head_ts cells e) := properties e]> (gid_anchor_edge_ t)) t
  else t.

Definition printf_of (cells : Ptr -> N) (e : Edge) : bool :=
  match delta e with
  | [] => true
  | _ :: _ => head_committed cells e
  end.

Definition notified_tx (cells : Ptr -> N) (ea : EdgeAccessor) (e : Edge)
    (t : Transaction) : Transaction :=
  let t1 := bookkept_tx cells ea e t in
  if prinfFlag && printf_of cells e
  then set_prinfEdge_
         (prinfEdge_ t1 ++
            [mkPrinfEdge (edge_type_ ea) (gid e) (from_gid e) (to_gid e)
               (overwritten_ts cells e) (properties e)]) t1
  else t1.

(** The delta as [CreateAndLinkDelta] links it, before the caller fills in
    the endpoint ids and [transaction_st]. *)
Definition linked_delta (transaction : Transaction) (k : PropertyId)
    (v : PropertyValue) : Delta :=
  mkDelta SET_PROPERTY k v (commit_timestamp transaction) 0%N 0%N 0%N.

(** *** [get_transaction_st] *)

(** edge_accessor.cpp, lines 70-79: whether the delta is one of the four
    edge-membership actions. *)
Definition delta_is_edge (d : Delta) : bool :=
  match action d with
  | ADD_OUT_EDGE | REMOVE_OUT_EDGE | ADD_IN_EDGE | REMOVE_IN_EDGE => true
  | _ => false
  end.

(** Lines 68-90: the loop over [before_delta], with the local [ts]. *)
Fixpoint get_transaction_st_loop (cells : Ptr -> N) (ts : N)
    (before_delta : list Delta) : N :=
  match before_delta with
  | [] => ts
  | d :: next =>
      if delta_is_edge d then get_transaction_st_loop cells ts next
      else
        let ts := cells (timestamp d) in
        if (kTransactionInitialId <=? ts)%N then d_transaction_st d else ts
  end.

(** Lines 65-91. *)
Definition get_transaction_st (cells : Ptr -> N) (vertex_ : Vertex) : N :=
  get_transaction_st_loop cells (v_transaction_st vertex_) (v_delta vertex_).

(** *** Further notions used in the properties *)

(** A property map that holds no null value. *)
Definition no_null (m : gmap N PropertyValue) : Prop :=
  map_Forall (fun _ v => IsNull v = false) m.

(** The walk of a reader stops at the head of this chain: the chain is
    empty, or its head delta is in the reader's past. *)
Definition stops_at (cells : Ptr -> N) (transaction : Transaction) (view : View)
    (chain : list Delta) : Prop :=
  match chain with
  | [] => True
  | head :: _ => in_past cells transaction view head = true
  end.

(** The transaction is running: its timestamp cell still holds its id, and
    the id lies in the range of transaction ids. *)
Definition running (cells : Ptr -> N) (t : Transaction) : Prop :=
  cells (commit_timestamp t) = transaction_id t
  /\ (kTransactionInitialId <= transaction_id t)%N.

(** ** Properties *)

(** *** The resolver and the visitors *)

Lemma ApplyDeltasForRead_applicable {S : Type} cells transaction ds view
    (callback : Delta -> S -> S) (s : S) :
  ApplyDeltasForRead cells transaction ds view callback s =
  fold_left (fun s d => callback d s) (applicable cells transaction ds view) s.
Proof.
  revert s. induction ds as [|d ds IH]; intros s; simpl; [done|].
  destruct (in_past cells transaction view d); simpl; [done|]. apply IH.
Qed.

Lemma applicable_prefix cells transaction ds view :
  applicable cells transaction ds view `prefix_of` ds.
Proof.
  induction ds as [|d ds IH]; simpl; [done|].
  destruct (in_past cells transaction view d).
  - apply prefix_nil.
  - by apply prefix_cons.
Qed.

(** The visitor of [Properties] is the undo step of the design document:
    the find/erase/assign/emplace case analysis of lines 277-288 amounts to
    "remove when the prior value is null, otherwise set". *)
Lemma Properties_callback_replay d s :
  Properties_callback d s = replay_step undo_property s d.
Proof.
  destruct s as [[ex del] m]. unfold Properties_callback, replay_step, undo_property.
  destruct (action d); try done.
  destruct (m !! property_key d) eqn:Hk; destruct (IsNull (property_value d)); simpl;
    try done.
  by rewrite delete_id.
Qed.

Lemma GetProperty_callback_replay property d s :
  GetProperty_callback property d s = replay_step (undo_value property) s d.
Proof.
  destruct s as [[ex del] v]. unfold GetProperty_callback, replay_step, undo_value.
  destruct (action d); try done. by destruct (property_key d =? property)%N.
Qed.

Lemma IsVisible_callback_replay d ex del :
  IsVisible_callback d (ex, del) =
  (replay_step (fun _ (x : unit) => x) (ex, del, tt) d).1.
Proof. unfold IsVisible_callback, replay_step. by destruct (action d). Qed.

Lemma fold_callback_ext {S : Type} (f g : S -> Delta -> S) ds s :
  (forall s d, f s d = g s d) -> fold_left f ds s = fold_left g ds s.
Proof.
  intros Hfg. revert s. induction ds as [|d ds IH]; intros s; simpl; [done|].
  by rewrite Hfg, IH.
Qed.

(** The lifecycle part [(exists, deleted)] of a replay does not depend on
    the state the property deltas are folded into. *)
Lemma replay_step_lifecycle {S T : Type} (f : Delta -> S -> S) (g : Delta -> T -> T)
    ex del x y d :
  (replay_step f (ex, del, x) d).1 = (replay_step g (ex, del, y) d).1.
Proof. unfold replay_step. by destruct (action d). Qed.

Lemma fold_replay_lifecycle {S T : Type} (f : Delta -> S -> S) (g : Delta -> T -> T)
    ds ex del x y :
  (fold_left (replay_step f) ds (ex, del, x)).1 =
  (fold_left (replay_step g) ds (ex, del, y)).1.
Proof.
  revert ex del x y. induction ds as [|d ds IH]; intros ex del x y;
    cbn [fold_left]; [done|].
  pose proof (replay_step_lifecycle f g ex del x y d) as Hd.
  destruct (replay_step f (ex, del, x) d) as [[ex1 del1] x1].
  destruct (replay_step g (ex, del, y) d) as [[ex2 del2] y2].
  simpl in Hd. injection Hd as -> ->. apply IH.
Qed.

(** What the three reads compute, once past the configuration check. *)
Lemma Properties_enabled cells ea view s :
  properties_on_edges (config_ ea) = true ->
  Properties cells ea view s =
  (read_result (for_deleted_ ea)
     (replay undo_property (applicable cells (st_tx s) (delta (st_edge s)) view)
        (deleted (st_edge s)) (properties (st_edge s))),
   log ([EvLock; EvSnapshot; EvUnlock]
          ++ map EvCallback (applicable cells (st_tx s) (delta (st_edge s)) view)) s).
Proof.
  intros Hon. unfold Properties. rewrite Hon. simpl.
  unfold bind, lock_guard, emit, emit_all, get_edge, get_tx, ret, fail. simpl.
  rewrite ApplyDeltasForRead_applicable.
  rewrite (fold_callback_ext _ (replay_step undo_property))
    by (intros; apply Properties_callback_replay).
  unfold replay, PropertyStore.Properties.
  destruct (fold_left _ _ _) as [[ex del] m]. unfold read_result.
  destruct s as [e t tr]. unfold log. simpl.
  rewrite <- !app_assoc. simpl.
  destruct ex; simpl; [|done]. by destruct (negb (for_deleted_ ea) && del).
Qed.

Lemma GetProperty_enabled cells ea property view s :
  properties_on_edges (config_ ea) = true ->
  GetProperty cells ea property view s =
  (read_result (for_deleted_ ea)
     (replay (undo_value property)
        (applicable cells (st_tx s) (delta (st_edge s)) view)
        (deleted (st_edge s))
        (PropertyStore.GetProperty (properties (st_edge s)) property)),
   log ([EvLock; EvSnapshot; EvUnlock]
          ++ map EvCallback (applicable cells (st_tx s) (delta (st_edge s)) view)) s).
Proof.
  intros Hon. unfold GetProperty. rewrite Hon. simpl.
  unfold bind, lock_guard, emit, emit_all, get_edge, get_tx, ret, fail. simpl.
  rewrite ApplyDeltasForRead_applicable.
  rewrite (fold_callback_ext _ (replay_step (undo_value property)))
    by (intros; apply GetProperty_callback_replay).
  unfold replay.
  destruct (fold_left _ _ _) as [[ex del] m]. unfold read_result.
  destruct s as [e t tr]. unfold log. simpl.
  rewrite <- !app_assoc. simpl.
  destruct ex; simpl; [|done]. by destruct (negb (for_deleted_ ea) && del).
Qed.

Lemma IsVisible_run cells ea view s :
  IsVisible cells ea view s =
  (let '(exists_, deleted_) :=
     ApplyDeltasForRead cells (st_tx s) (delta (st_edge s)) view
       IsVisible_callback (true, deleted (st_edge s)) in
   Ok (exists_ && (for_deleted_ ea || negb deleted_)),
   log ([EvLock; EvSnapshot; EvUnlock]
          ++ map EvCallback (applicable cells (st_tx s) (delta (st_edge s)) view)) s).
Proof.
  unfold IsVisible.
  unfold bind, lock_guard, emit, emit_all, get_edge, get_tx, ret, fail. simpl.
  destruct (ApplyDeltasForRead _ _ _ _ _ _) as [ex del].
  destruct s as [e t tr]. unfold log. simpl.
  by rewrite <- !app_assoc.
Qed.

Lemma undo_property_lookup d (m : gmap N PropertyValue) k :
  undo_property d m !! k =
  if decide (k = property_key d)
  then (if IsNull (property_value d) then None else Some (property_value d))
  else m !! k.
Proof.
  unfold undo_property. case_decide as Hk; destruct (IsNull (property_value d)).
  - subst k. apply lookup_delete_eq.
  - subst k. apply lookup_insert_eq.
  - by apply lookup_delete_ne.
  - by apply lookup_insert_ne.
Qed.

(** *** Reads *)

(** C3 (amended: with properties on edges enabled).  [Properties] and
    [GetProperty] reconstruct the visible state by folding the applicable
    deltas, newest first, as undos: a [SET_PROPERTY] delta sets its key
    back to the prior value (inserting it if absent) or removes the key
    when the prior value is null, and in [GetProperty] replaces the value
    when the key is the requested one; [DELETE_OBJECT] clears [exists],
    [RECREATE_OBJECT] clears [deleted].  The snapshot of the deleted flag,
    the properties and the chain head is taken between the lock and the
    unlock, and every delta is visited after the unlock. *)
Theorem C3_reads_fold_undo cells ea property view s :
  properties_on_edges (config_ ea) = true ->
  let e := st_edge s in
  let ds := applicable cells (st_tx s) (delta e) view in
  Properties cells ea view s =
    (read_result (for_deleted_ ea)
       (replay undo_property ds (deleted e) (properties e)),
     log ([EvLock; EvSnapshot; EvUnlock] ++ map EvCallback ds) s)
  /\ GetProperty cells ea property view s =
    (read_result (for_deleted_ ea)
       (replay (undo_value property) ds (deleted e)
          (PropertyStore.GetProperty (properties e) property)),
     log ([EvLock; EvSnapshot; EvUnlock] ++ map EvCallback ds) s)
  /\ (forall d (m : gmap N PropertyValue) k,
        undo_property d m !! k =
        if decide (k = property_key d)
        then (if IsNull (property_value d) then None else Some (property_value d))
        else m !! k)
  /\ (forall d ex del (m : gmap N PropertyValue),
        action d = DELETE_OBJECT ->
        Properties_callback d (ex, del, m) = (false, del, m))
  /\ (forall d ex del (m : gmap N PropertyValue),
        action d = RECREATE_OBJECT ->
        Properties_callback d (ex, del, m) = (ex, false, m))
  /\ (forall d ex del v,
        action d = DELETE_OBJECT ->
        GetProperty_callback property d (ex, del, v) = (false, del, v))
  /\ (forall d ex del v,
        action d = RECREATE_OBJECT ->
        GetProperty_callback property d (ex, del, v) = (ex, false, v)).
Proof.
  intros Hon e ds. split_and!.
  - by apply Properties_enabled.
  - by apply GetProperty_enabled.
  - apply undo_property_lookup.
  - intros d ex del m Ha. unfold Properties_callback. by rewrite Ha.
  - intros d ex del m Ha. unfold Properties_callback. by rewrite Ha.
  - intros d ex del v Ha. unfold GetProperty_callback. by rewrite Ha.
  - intros d ex del v Ha. unfold GetProperty_callback. by rewrite Ha.
Qed.

(** C7 (amended: with properties on edges enabled).  When the replay that
    [GetProperty] and [Properties] run leaves [exists] false they return
    [NONEXISTENT_OBJECT], whatever the deleted flag and the accessor's
    mode; when it leaves [exists] true and [deleted] true and the accessor
    is not in include-deleted mode they return [DELETED_OBJECT]; in
    include-deleted mode an existing object's reconstructed value is
    returned, deleted or not. *)
Theorem C7_read_errors cells ea property view s ex del v ex' del' m :
  properties_on_edges (config_ ea) = true ->
  ApplyDeltasForRead cells (st_tx s) (delta (st_edge s)) view
    (GetProperty_callback property)
    (true, deleted (st_edge s),
     PropertyStore.GetProperty (properties (st_edge s)) property)
  = (ex, del, v) ->
  ApplyDeltasForRead cells (st_tx s) (delta (st_edge s)) view
    Properties_callback
    (true, deleted (st_edge s), PropertyStore.Properties (properties (st_edge s)))
  = (ex', del', m) ->
  (ex = false -> (GetProperty cells ea property view s).1 = Err NONEXISTENT_OBJECT)
  /\ (ex' = false -> (Properties cells ea view s).1 = Err NONEXISTENT_OBJECT)
  /\ (ex = true -> del = true -> for_deleted_ ea = false ->
       (GetProperty cells ea property view s).1 = Err DELETED_OBJECT)
  /\ (ex' = true -> del' = true -> for_deleted_ ea = false ->
       (Properties cells ea view s).1 = Err DELETED_OBJECT)
  /\ (ex = true -> for_deleted_ ea = true ->
       (GetProperty cells ea property view s).1 = Ok v)
  /\ (ex' = true -> for_deleted_ ea = true ->
       (Properties cells ea view s).1 = Ok m)
  /\ (ex = true -> del = false ->
       (GetProperty cells ea property view s).1 = Ok v)
  /\ (ex' = true -> del' = false ->
       (Properties cells ea view s).1 = Ok m)
  /\ ex = ex' /\ del = del'.
Proof.
  intros Hon Hg Hp.
  rewrite GetProperty_enabled, Properties_enabled by done. simpl.
  rewrite ApplyDeltasForRead_applicable in Hg.
  rewrite ApplyDeltasForRead_applicable in Hp.
  rewrite (fold_callback_ext _ (replay_step (undo_value property))) in Hg
    by (intros; apply GetProperty_callback_replay).
  rewrite (fold_callback_ext _ (replay_step undo_property)) in Hp
    by (intros; apply Properties_callback_replay).
  pose proof (fold_replay_lifecycle (undo_value property) undo_property
                (applicable cells (st_tx s) (delta (st_edge s)) view)
                true (deleted (st_edge s))
                (PropertyStore.GetProperty (properties (st_edge s)) property)
                (PropertyStore.Properties (properties (st_edge s)))) as Hl.
  unfold replay. unfold PropertyStore.Properties in Hp, Hl.
  rewrite Hg, Hp in *. simpl in Hl. injection Hl as <- <-.
  unfold read_result.
  split_and!; try done; intros; subst; simpl; try done.
  all: repeat match goal with H : for_deleted_ _ = _ |- _ => rewrite H end.
  all: simpl; try done.
  all: by destruct (for_deleted_ _).
Qed.

(** C8.  [IsVisible] returns true exactly when the replay leaves [exists]
    true and the accessor is in include-deleted mode or the reconstructed
    [deleted] is false.  In that replay a [DELETE_OBJECT] delta clears
    [exists], a [RECREATE_OBJECT] delta clears [deleted], and every other
    delta (labels, properties, edge membership) leaves both as they are, so
    the outcome is that of the lifecycle deltas alone. *)
Theorem C8_IsVisible cells ea view s :
  let r := ApplyDeltasForRead cells (st_tx s) (delta (st_edge s)) view
             IsVisible_callback (true, deleted (st_edge s)) in
  (exists b, (IsVisible cells ea view s).1 = Ok b
     /\ (b = true <-> r.1 = true /\ (for_deleted_ ea = true \/ r.2 = false)))
  /\ (forall d st, is_lifecycle d = false -> IsVisible_callback d st = st)
  /\ (forall d ex del, action d = DELETE_OBJECT ->
         IsVisible_callback d (ex, del) = (false, del))
  /\ (forall d ex del, action d = RECREATE_OBJECT ->
         IsVisible_callback d (ex, del) = (ex, false))
  /\ r = fold_left (fun st d => IsVisible_callback d st)
           (filter (fun d => is_lifecycle d = true)
              (applicable cells (st_tx s) (delta (st_edge s)) view))
           (true, deleted (st_edge s)).
Proof.
  intros r. split_and!.
  - rewrite IsVisible_run. fold r. destruct r as [ex del]. simpl.
    eexists; split; [done|].
    destruct ex, (for_deleted_ ea), del; simpl;
      (split;
       [ intros Hb;
         first [ discriminate Hb
               | split; [reflexivity | first [by left | by right]] ]
       | intros [H1 [H2 | H2]]; first [reflexivity | discriminate] ]).
  - intros d [ex del] Hd. unfold is_lifecycle in Hd. unfold IsVisible_callback.
    by destruct (action d).
  - intros d ex del Ha. unfold IsVisible_callback. by rewrite Ha.
  - intros d ex del Ha. unfold IsVisible_callback. by rewrite Ha.
  - subst r. rewrite ApplyDeltasForRead_applicable.
    generalize (true, deleted (st_edge s)).
    induction (applicable cells (st_tx s) (delta (st_edge s)) view) as [|d ds IH];
      intros st; [done|].
    rewrite filter_cons. simpl. case_decide as Hd.
    + simpl. apply IH.
    + rewrite <- IH. f_equal. destruct st as [ex del].
      unfold is_lifecycle in Hd. unfold IsVisible_callback.
      by destruct (action d).
Qed.

(** C9.  With properties on edges turned off, [GetProperty] returns a
    successful null value and [Properties] a successful empty map, for
    every edge, key and view, and neither takes the lock, snapshots the
    edge or visits a delta: the state and the trace are as before. *)
Theorem C9_reads_when_disabled cells ea property view s :
  properties_on_edges (config_ ea) = false ->
  GetProperty cells ea property view s = (Ok PVNull, s)
  /\ Properties cells ea view s = (Ok ∅, s).
Proof.
  intros Hoff. unfold GetProperty, Properties. rewrite Hoff. done.
Qed.

(** C6 (amended).  With properties on edges turned off, [SetProperty] and
    [ClearProperties] return [PROPERTIES_DISABLED], while [GetProperty]
    and [Properties] return a successful null value and a successful empty
    map; all four do so before the lock is taken or the edge is looked at:
    the state and the trace are as before, whatever the edge holds. *)
Theorem C6_disabled cells ea property value view s :
  properties_on_edges (config_ ea) = false ->
  SetProperty cells ea property value s = (Err PROPERTIES_DISABLED, s)
  /\ ClearProperties cells ea s = (Err PROPERTIES_DISABLED, s)
  /\ GetProperty cells ea property view s = (Ok PVNull, s)
  /\ Properties cells ea view s = (Ok ∅, s).
Proof.
  intros Hoff. unfold SetProperty, ClearProperties, GetProperty, Properties.
  rewrite Hoff. done.
Qed.

(** C10.  [FromVertex] and [ToVertex] build the vertex accessor for the
    stored endpoint with the accessor's transaction, indices, constraints
    and configuration, and with the include-deleted flag at its default
    [false], also when the edge accessor itself is in include-deleted
    mode. *)
Theorem C10_endpoint_accessors ea :
  v_for_deleted_ (FromVertex ea) = false
  /\ v_for_deleted_ (ToVertex ea) = false
  /\ vertex_ (FromVertex ea) = from_vertex_ ea
  /\ vertex_ (ToVertex ea) = to_vertex_ ea
  /\ (forall va, va = FromVertex ea \/ va = ToVertex ea ->
        v_transaction_ va = transaction_ ea
        /\ v_indices_ va = indices_ ea
        /\ v_constraints_ va = constraints_ ea
        /\ v_config_ va = config_ ea)
  /\ (forall vertex transaction indices constraints config,
        v_for_deleted_
          (VertexAccessor_new vertex transaction indices constraints config None)
        = false).
Proof.
  split_and!; try done. by intros va [-> | ->].
Qed.

(** *** Writes *)

Ltac run := unfold bind, ret, fail, get_edge, get_tx, put_edge, put_tx, emit,
              emit_all, lock_guard, log; simpl.

Lemma PrepareForWrite_false cells t e :
  PrepareForWrite cells t e = false <->
  exists head rest, delta e = head :: rest
    /\ (kTransactionInitialId <= cells (timestamp head))%N
    /\ cells (timestamp head) <> transaction_id t.
Proof.
  unfold PrepareForWrite. destruct (delta e) as [|head rest].
  - split; [done|]. by intros (? & ? & ? & _).
  - destruct (N.leb_spec kTransactionInitialId (cells (timestamp head))) as [Hle|Hlt].
    + rewrite N.eqb_neq. split.
      * intros Hne. by exists head, rest.
      * intros (h & r & Heq & _ & Hne). by injection Heq as <- <-.
    + split; [done|]. intros (h & r & Heq & Hle & _).
      injection Heq as <- <-. lia.
Qed.

Lemma write_bookkeeping_ok cells ea e t tr :
  PrepareForWrite cells t e = true ->
  write_bookkeeping cells ea (mkSt e t tr) =
  (Ok (overwritten_ts cells e, printf_of cells e),
   mkSt (bookkept_edge cells ea e) (bookkept_tx cells ea e t) tr).
Proof.
  unfold PrepareForWrite, write_bookkeeping, overwritten_ts, printf_of,
    bookkept_edge, bookkept_tx, head_committed, head_ts, counted.
  run. destruct (delta e) as [|head rest] eqn:Hd; [done|].
  destruct (N.leb_spec kTransactionInitialId (cells (timestamp head))) as [Hle|Hlt].
  - intros ->. simpl.
    destruct (N.ltb_spec (cells (timestamp head)) kTransactionInitialId); [lia|done].
  - intros _.
    destruct (N.ltb_spec (cells (timestamp head)) kTransactionInitialId); [|lia].
    simpl. destruct (AnchorNum (config_ ea) <? num e + 1)%Z; simpl; [|done].
    by destruct AnchorFlag.
Qed.

Lemma notify_ok cells ea e e1 t1 tr :
  gid e1 = gid e -> from_gid e1 = from_gid e -> to_gid e1 = to_gid e ->
  properties e1 = properties e ->
  notify ea (overwritten_ts cells e) (printf_of cells e) (mkSt e1 t1 tr) =
  (Ok tt,
   mkSt e1
     (if prinfFlag && printf_of cells e
      then set_prinfEdge_
             (prinfEdge_ t1 ++
                [mkPrinfEdge (edge_type_ ea) (gid e) (from_gid e) (to_gid e)
                   (overwritten_ts cells e) (properties e)]) t1
      else t1) tr).
Proof.
  intros Hg Hf Ht Hp. unfold notify. run.
  destruct (prinfFlag && printf_of cells e); [|done].
  unfold PropertyStore.Properties. simpl. by rewrite Hg, Hf, Ht, Hp.
Qed.

Lemma bookkept_edge_fields cells ea e :
  gid (bookkept_edge cells ea e) = gid e
  /\ from_gid (bookkept_edge cells ea e) = from_gid e
  /\ to_gid (bookkept_edge cells ea e) = to_gid e
  /\ properties (bookkept_edge cells ea e) = properties e
  /\ delta (bookkept_edge cells ea e) = delta e
  /\ deleted (bookkept_edge cells ea e) = deleted e
  /\ transaction_st (bookkept_edge cells ea e) = transaction_st e.
Proof. unfold bookkept_edge. by destruct (head_committed cells e). Qed.

Lemma notified_tx_commit_timestamp cells ea e t :
  commit_timestamp (notified_tx cells ea e t) = commit_timestamp t.
Proof.
  unfold notified_tx, bookkept_tx.
  by destruct (prinfFlag && _), (_ && _ && AnchorFlag).
Qed.

Lemma link_undo_ok ts k v e t tr :
  link_undo ts k v (mkSt e t tr) =
  (Ok tt,
   mkSt (set_delta
           (mkDelta SET_PROPERTY k v (commit_timestamp t) (from_gid e) (to_gid e) ts
              :: delta e) e)
     t (tr ++ [EvLinkDelta (linked_delta t k v)])).
Proof. unfold link_undo, CreateAndLinkDelta, assign_head. run. done. Qed.

Lemma foreach_link_undo ts (l : list (N * PropertyValue)) e t tr :
  foreach l (fun p => link_undo ts p.1 p.2) (mkSt e t tr) =
  (Ok tt,
   mkSt (set_delta
           (reverse
              (map (fun p => mkDelta SET_PROPERTY p.1 p.2 (commit_timestamp t)
                               (from_gid e) (to_gid e) ts) l)
              ++ delta e) e)
     t (tr ++ map (fun p => EvLinkDelta (linked_delta t p.1 p.2)) l)).
Proof.
  revert e tr. induction l as [|p l IH]; intros e tr.
  - simpl. unfold ret. rewrite app_nil_r. by destruct e.
  - cbn [foreach]. unfold bind at 1. rewrite link_undo_ok. rewrite IH. simpl.
    rewrite reverse_cons, <- !app_assoc. simpl. by destruct e.
Qed.

(** What the two writes do, once past the configuration check: rejected by
    the validator, refused on a deleted edge, or carried out. *)
Lemma SetProperty_rejected cells ea property value s :
  properties_on_edges (config_ ea) = true ->
  PrepareForWrite cells (st_tx s) (st_edge s) = false ->
  SetProperty cells ea property value s =
  (Err SERIALIZATION_ERROR, log [EvLock; EvUnlock] s).
Proof.
  intros Hon Hp. unfold SetProperty. rewrite Hon. run. rewrite Hp. simpl.
  by rewrite <- app_assoc.
Qed.

Lemma ClearProperties_rejected cells ea s :
  properties_on_edges (config_ ea) = true ->
  PrepareForWrite cells (st_tx s) (st_edge s) = false ->
  ClearProperties cells ea s =
  (Err SERIALIZATION_ERROR, log [EvLock; EvUnlock] s).
Proof.
  intros Hon Hp. unfold ClearProperties. rewrite Hon. run. rewrite Hp. simpl.
  by rewrite <- app_assoc.
Qed.

Lemma SetProperty_deleted cells ea property value s :
  properties_on_edges (config_ ea) = true ->
  PrepareForWrite cells (st_tx s) (st_edge s) = true ->
  deleted (st_edge s) = true ->
  SetProperty cells ea property value s =
  (Err DELETED_OBJECT, log [EvLock; EvUnlock] s).
Proof.
  intros Hon Hp Hd. unfold SetProperty. rewrite Hon. run. rewrite Hp, Hd. simpl.
  by rewrite <- app_assoc.
Qed.

Lemma ClearProperties_deleted cells ea s :
  properties_on_edges (config_ ea) = true ->
  PrepareForWrite cells (st_tx s) (st_edge s) = true ->
  deleted (st_edge s) = true ->
  ClearProperties cells ea s =
  (Err DELETED_OBJECT, log [EvLock; EvUnlock] s).
Proof.
  intros Hon Hp Hd. unfold ClearProperties. rewrite Hon. run. rewrite Hp, Hd. simpl.
  by rewrite <- app_assoc.
Qed.

Lemma SetProperty_ok cells ea property value s :
  properties_on_edges (config_ ea) = true ->
  PrepareForWrite cells (st_tx s) (st_edge s) = true ->
  deleted (st_edge s) = false ->
  let e := st_edge s in
  let current_value := PropertyStore.GetProperty (properties e) property in
  SetProperty cells ea property value s =
  (Ok current_value,
   mkSt (set_properties
           (PropertyStore.SetProperty property value (properties e))
           (set_delta
              (undo_delta cells (st_tx s) e property current_value :: delta e)
              (bookkept_edge cells ea e)))
     (notified_tx cells ea e (st_tx s))
     (st_trace s ++
        [EvLock; EvLinkDelta (linked_delta (st_tx s) property current_value);
         EvSetLive property; EvUnlock])).
Proof.
  intros Hon Hp Hd e current_value. subst e current_value.
  destruct s as [e t tr]. simpl in *.
  unfold SetProperty. rewrite Hon. simpl. unfold lock_guard, log. simpl.
  unfold bind at 1. unfold get_edge at 1. simpl.
  unfold bind at 1. unfold get_tx at 1. simpl.
  rewrite Hp, Hd. simpl.
  unfold bind at 1. rewrite write_bookkeeping_ok by done.
  destruct (bookkept_edge_fields cells ea e) as (Hg & Hf & Ht & Hpr & Hdl & _).
  unfold bind at 1. rewrite notify_ok by done.
  unfold bind at 1. unfold get_edge at 1. cbn -[link_undo].
  unfold bind at 1. rewrite link_undo_ok.
  run. rewrite Hpr, Hf, Ht, Hdl.
  fold (notified_tx cells ea e t). rewrite notified_tx_commit_timestamp.
  unfold undo_delta, linked_delta. rewrite <- !app_assoc. simpl.
  by rewrite ?notified_tx_commit_timestamp.
Qed.

Lemma ClearProperties_ok cells ea s :
  properties_on_edges (config_ ea) = true ->
  PrepareForWrite cells (st_tx s) (st_edge s) = true ->
  deleted (st_edge s) = false ->
  let e := st_edge s in
  let items := map_items (properties e) in
  ClearProperties cells ea s =
  (Ok (properties e),
   mkSt (set_properties ∅
           (set_delta
              (reverse (map (fun p => undo_delta cells (st_tx s) e p.1 p.2) items)
                 ++ delta e)
              (bookkept_edge cells ea e)))
     (notified_tx cells ea e (st_tx s))
     (st_trace s ++
        [EvLock] ++ map (fun p => EvLinkDelta (linked_delta (st_tx s) p.1 p.2)) items
        ++ [EvClearLive; EvUnlock])).
Proof.
  intros Hon Hp Hd e items. subst e items.
  destruct s as [e t tr]. simpl in *.
  unfold ClearProperties. rewrite Hon. simpl. unfold lock_guard, log. simpl.
  unfold bind at 1. unfold get_edge at 1. simpl.
  unfold bind at 1. unfold get_tx at 1. simpl.
  rewrite Hp, Hd. simpl.
  unfold bind at 1. rewrite write_bookkeeping_ok by done.
  destruct (bookkept_edge_fields cells ea e) as (Hg & Hf & Ht & Hpr & Hdl & _).
  unfold bind at 1. rewrite notify_ok by done.
  unfold bind at 1. unfold get_edge at 1. cbn -[foreach map_items].
  unfold bind at 1. unfold PropertyStore.Properties. rewrite foreach_link_undo.
  run. rewrite Hpr, Hf, Ht, Hdl.
  fold (notified_tx cells ea e t). rewrite notified_tx_commit_timestamp.
  unfold undo_delta, linked_delta, PropertyStore.ClearProperties.
  rewrite <- !app_assoc. simpl.
  rewrite (map_ext (fun p : N * PropertyValue =>
             EvLinkDelta (mkDelta SET_PROPERTY p.1 p.2
                            (commit_timestamp (notified_tx cells ea e t)) 0 0 0))
           (fun p => EvLinkDelta (mkDelta SET_PROPERTY p.1 p.2 (commit_timestamp t) 0 0 0)))
    by (intros; by rewrite notified_tx_commit_timestamp).
  by destruct (bookkept_edge cells ea e).
Qed.

Lemma PrepareForWrite_permitted cells t e :
  (delta e = []
   \/ exists head rest, delta e = head :: rest
        /\ (cells (timestamp head) = transaction_id t
            \/ (cells (timestamp head) < kTransactionInitialId)%N)) ->
  PrepareForWrite cells t e = true.
Proof.
  intros Hcase. destruct (PrepareForWrite cells t e) eqn:Hp; [done|].
  apply PrepareForWrite_false in Hp as (head & rest & Hd & Hle & Hne).
  destruct Hcase as [Hnil | (h & r & Hd' & Hcase)].
  - congruence.
  - rewrite Hd in Hd'. injection Hd' as <- <-. destruct Hcase; [done | lia].
Qed.

Lemma SetProperty_Ok_inv cells ea property value s r s' :
  SetProperty cells ea property value s = (Ok r, s') ->
  properties_on_edges (config_ ea) = true
  /\ PrepareForWrite cells (st_tx s) (st_edge s) = true
  /\ deleted (st_edge s) = false.
Proof.
  intros H.
  destruct (properties_on_edges (config_ ea)) eqn:Hon; cycle 1.
  { unfold SetProperty in H. by rewrite Hon in H. }
  destruct (PrepareForWrite cells (st_tx s) (st_edge s)) eqn:Hp; cycle 1.
  { by rewrite SetProperty_rejected in H. }
  destruct (deleted (st_edge s)) eqn:Hd; [|done].
  by rewrite SetProperty_deleted in H.
Qed.

Lemma ClearProperties_Ok_inv cells ea s r s' :
  ClearProperties cells ea s = (Ok r, s') ->
  properties_on_edges (config_ ea) = true
  /\ PrepareForWrite cells (st_tx s) (st_edge s) = true
  /\ deleted (st_edge s) = false.
Proof.
  intros H.
  destruct (properties_on_edges (config_ ea)) eqn:Hon; cycle 1.
  { unfold ClearProperties in H. by rewrite Hon in H. }
  destruct (PrepareForWrite cells (st_tx s) (st_edge s)) eqn:Hp; cycle 1.
  { by rewrite ClearProperties_rejected in H. }
  destruct (deleted (st_edge s)) eqn:Hd; [|done].
  by rewrite ClearProperties_deleted in H.
Qed.

(** C1 (amended: with properties on edges enabled).  A call of
    [SetProperty] or [ClearProperties] on an edge whose head delta's
    timestamp cell holds the id of another transaction returns
    [SERIALIZATION_ERROR] and leaves the edge (deleted flag, properties,
    chain, write-count) and the transaction as they were, having only taken
    and released the lock; when there is no head delta, or it is the
    caller's own, or it is committed, the call does not return
    [SERIALIZATION_ERROR]. *)
Theorem C1_first_writer_wins cells ea property value s :
  properties_on_edges (config_ ea) = true ->
  let e := st_edge s in
  let t := st_tx s in
  (forall head rest,
     delta e = head :: rest ->
     (kTransactionInitialId <= cells (timestamp head))%N ->
     cells (timestamp head) <> transaction_id t ->
     SetProperty cells ea property value s =
       (Err SERIALIZATION_ERROR, mkSt e t (st_trace s ++ [EvLock; EvUnlock]))
     /\ ClearProperties cells ea s =
       (Err SERIALIZATION_ERROR, mkSt e t (st_trace s ++ [EvLock; EvUnlock])))
  /\ (delta e = []
      \/ (exists head rest, delta e = head :: rest
            /\ (cells (timestamp head) = transaction_id t
                \/ (cells (timestamp head) < kTransactionInitialId)%N)) ->
      (SetProperty cells ea property value s).1 <> Err SERIALIZATION_ERROR
      /\ (ClearProperties cells ea s).1 <> Err SERIALIZATION_ERROR).
Proof.
  intros Hon e t. split.
  - intros head rest Hd Hle Hne.
    assert (PrepareForWrite cells t e = false) as Hp.
    { apply PrepareForWrite_false. by exists head, rest. }
    rewrite SetProperty_rejected, ClearProperties_rejected by done.
    by destruct s.
  - intros Hcase. apply PrepareForWrite_permitted with (t := t) in Hcase.
    destruct (deleted e) eqn:Hdel.
    + by rewrite SetProperty_deleted, ClearProperties_deleted.
    + by rewrite SetProperty_ok, ClearProperties_ok.
Qed.

Lemma head_committed_true cells e head rest :
  delta e = head :: rest ->
  (cells (timestamp head) < kTransactionInitialId)%N ->
  head_committed cells e = true /\ head_ts cells e = cells (timestamp head).
Proof.
  intros Hd Hlt. unfold head_committed, head_ts. rewrite Hd.
  split; [by apply N.ltb_lt | done].
Qed.

Lemma notified_tx_archive cells ea e t :
  gid_anchor_edge_ (notified_tx cells ea e t) =
  gid_anchor_edge_ (bookkept_tx cells ea e t).
Proof. unfold notified_tx. by destruct (prinfFlag && _). Qed.

(** The anchor bookkeeping of one write over a committed head. *)
Lemma anchor_bookkeeping cells ea e t head rest :
  delta e = head :: rest ->
  (cells (timestamp head) < kTransactionInitialId)%N ->
  ((num e + 1 <= AnchorNum (config_ ea))%Z ->
   num (bookkept_edge cells ea e) = (num e + 1)%Z
   /\ gid_anchor_edge_ (notified_tx cells ea e t) = gid_anchor_edge_ t)
  /\ ((AnchorNum (config_ ea) < num e + 1)%Z ->
      num (bookkept_edge cells ea e) = 1%Z
      /\ (AnchorFlag = true ->
          gid_anchor_edge_ (notified_tx cells ea e t) =
          <[(gid e, cells (timestamp head)) := properties e]> (gid_anchor_edge_ t))
      /\ (AnchorFlag = false ->
          gid_anchor_edge_ (notified_tx cells ea e t) = gid_anchor_edge_ t)).
Proof.
  intros Hd Hlt. destruct (head_committed_true cells e head rest Hd Hlt) as [Hc Hts].
  rewrite notified_tx_archive. unfold bookkept_edge, bookkept_tx, counted.
  rewrite Hc, Hts. simpl.
  destruct (Z.ltb_spec (AnchorNum (config_ ea)) (num e + 1)) as [Hgt | Hle].
  - split; [lia|]. intros _. split; [done|]. split; by intros ->.
  - split; [done|lia].
Qed.

(** What a successful write leaves in the write-count and in the archive. *)
Lemma run_op_bookkeeping cells ea op e t s' :
  run_op cells ea op (mkSt e t []) = (Ok tt, s') ->
  num (st_edge s') = num (bookkept_edge cells ea e)
  /\ gid_anchor_edge_ (st_tx s') = gid_anchor_edge_ (bookkept_tx cells ea e t).
Proof.
  intros Hop. rewrite <- (notified_tx_archive cells ea e t).
  unfold run_op in Hop. destruct op as [property value|]; unfold bind in Hop.
  - destruct (SetProperty _ _ _ _ _) as [[r|err] s2] eqn:Hset; [|done].
    injection Hop as <-.
    destruct (SetProperty_Ok_inv _ _ _ _ _ _ _ Hset) as (Hon & Hp & Hdel).
    rewrite SetProperty_ok in Hset by done. by injection Hset as _ <-.
  - destruct (ClearProperties _ _ _) as [[r|err] s2] eqn:Hclr; [|done].
    injection Hop as <-.
    destruct (ClearProperties_Ok_inv _ _ _ _ _ Hclr) as (Hon & Hp & Hdel).
    rewrite ClearProperties_ok in Hclr by done. by injection Hclr as _ <-.
Qed.

Lemma bookkeeping_not_committed cells ea e t :
  head_committed cells e = false ->
  bookkept_edge cells ea e = e /\ bookkept_tx cells ea e t = t.
Proof. intros Hc. unfold bookkept_edge, bookkept_tx. by rewrite Hc. Qed.

Lemma head_committed_inv cells e :
  head_committed cells e = true ->
  exists head rest, delta e = head :: rest
    /\ (cells (timestamp head) < kTransactionInitialId)%N.
Proof.
  unfold head_committed. destruct (delta e) as [|head rest]; [done|].
  intros Hlt. exists head, rest. split; [done|]. by apply N.ltb_lt.
Qed.

Lemma snapshots_none txs : no_snapshot txs -> snapshots txs = 0.
Proof.
  unfold no_snapshot, snapshots. rewrite map_Forall_to_list.
  induction 1 as [|[p t] l Hpt _ IH]; [done|].
  simpl in *. by rewrite Hpt, map_size_empty, IH.
Qed.

Lemma snapshots_one txs : one_snapshot txs -> snapshots txs = 1.
Proof.
  intros (p & t & Hpt & Hsize & Hrest). unfold snapshots.
  rewrite <- (insert_delete_id txs p t Hpt).
  rewrite map_to_list_insert by apply lookup_delete_eq. simpl.
  fold (snapshots (delete p txs)). by rewrite snapshots_none, Hsize.
Qed.

(** A transaction stored back with its archive as it was. *)
Lemma no_snapshot_store txs p (t t' : Transaction) :
  txs !! p = Some t ->
  gid_anchor_edge_ t' = gid_anchor_edge_ t ->
  no_snapshot txs -> no_snapshot (<[p := t']> txs).
Proof.
  intros Hp Heq Hnone. apply map_Forall_insert_2; [|done].
  rewrite Heq. by apply (map_Forall_lookup_1 _ _ _ _ Hnone Hp).
Qed.

Lemma one_snapshot_store txs p (t t' : Transaction) :
  txs !! p = Some t ->
  gid_anchor_edge_ t' = gid_anchor_edge_ t ->
  one_snapshot txs -> one_snapshot (<[p := t']> txs).
Proof.
  intros Hp Heq (q & u & Hq & Hsize & Hrest).
  destruct (decide (q = p)) as [-> | Hne].
  - exists p, t'. rewrite lookup_insert_eq, delete_insert_eq.
    split_and!; [done | | done]. rewrite Heq. congruence.
  - exists q, u. rewrite lookup_insert_ne by done.
    rewrite delete_insert_ne by done.
    split_and!; [done | done |].
    apply (no_snapshot_store _ _ t); [|done|done].
    by rewrite lookup_delete_ne.
Qed.

(** The first snapshot. *)
Lemma one_snapshot_first txs p (t t' : Transaction) :
  txs !! p = Some t ->
  size (gid_anchor_edge_ t') = 1 ->
  no_snapshot txs -> one_snapshot (<[p := t']> txs).
Proof.
  intros Hp Hsize Hnone. exists p, t'.
  rewrite lookup_insert_eq, delete_insert_eq.
  split_and!; [done | done |]. by apply map_Forall_delete.
Qed.

Lemma cadence_step (n : Z) k c w w1 :
  AnchorFlag = true ->
  AnchorNum (config_ (w_accessor c)) = n ->
  (Z.of_nat k <= n + 1)%Z ->
  cadence n k w ->
  run_call c w = Some w1 ->
  let k1 := (if head_committed (w_cells c) (world_edge w) then 1 else 0) + k in
  (Z.of_nat k1 <= n + 1)%Z ->
  cadence n k1 w1.
Proof.
  intros Hflag Hn Hk Hinv Hcall k1 Hk1. subst k1. unfold run_call in Hcall.
  destruct (world_txs w !! transaction_ (w_accessor c)) as [t|] eqn:Ht; [|done].
  destruct (run_op _ _ _ _) as [[[]|err] s1] eqn:Hop; [|done].
  injection Hcall as <-.
  apply run_op_bookkeeping in Hop as [Hnum Harch].
  destruct (head_committed (w_cells c) (world_edge w)) eqn:Hc; cycle 1.
  - (* the caller's own head, or no head: nothing changes *)
    destruct (bookkeeping_not_committed (w_cells c) (w_accessor c) (world_edge w) t Hc)
      as [He Htx].
    rewrite He in Hnum. rewrite Htx in Harch.
    unfold cadence in *. simpl in *. case_decide.
    + destruct Hinv as [Hcount Hnone]. split; [congruence|].
      by apply (no_snapshot_store _ _ t).
    + destruct Hinv as [Hcount Hone]. split; [congruence|].
      by apply (one_snapshot_store _ _ t).
  - (* a committed head *)
    apply head_committed_inv in Hc as (head & rest & Hd & Hlt).
    pose proof (anchor_bookkeeping (w_cells c) (w_accessor c) (world_edge w) t
                  head rest Hd Hlt) as [Hkeep Hreset].
    rewrite notified_tx_archive in Hkeep, Hreset. rewrite Hn in Hkeep, Hreset.
    unfold cadence in Hinv. case_decide as Hle; [|lia].
    destruct Hinv as [Hcount Hnone]. rewrite Hcount in Hkeep, Hreset.
    unfold cadence. simpl. case_decide as Hle1.
    + destruct Hkeep as [Hinc Hsame]; [lia|]. split; [lia|].
      apply (no_snapshot_store _ _ t); [done | congruence | done].
    + destruct Hreset as (Hone & Hsnap & _); [lia|]. split; [congruence|].
      apply (one_snapshot_first _ _ t); [done | | done].
      rewrite Harch, Hsnap by done.
      rewrite (map_Forall_lookup_1 _ _ _ _ Hnone Ht).
      rewrite map_size_insert_None by apply lookup_empty.
      by rewrite map_size_empty.
Qed.

Lemma cadence_run (n : Z) cs :
  AnchorFlag = true ->
  Forall (fun c => AnchorNum (config_ (w_accessor c)) = n) cs ->
  forall k w w' j,
    cadence n k w ->
    run_calls cs w = Some (w', j) ->
    (Z.of_nat (j + k) <= n + 1)%Z ->
    cadence n (j + k) w'.
Proof.
  intros Hflag Hall. induction Hall as [|c cs Hc Hall IH]; intros k w w' j Hinv Hrun Hj.
  - simpl in Hrun. by injection Hrun as <- <-.
  - cbn [run_calls] in Hrun.
    destruct (run_call c w) as [w1|] eqn:Hcall; [|done].
    destruct (run_calls cs w1) as [[w2 j']|] eqn:Hrest; [|done].
    injection Hrun as <- <-.
    set (b := if head_committed (w_cells c) (world_edge w) then 1 else 0) in *.
    replace (b + j' + k) with (j' + (b + k)) in * by lia.
    apply (IH (b + k) w1); [|done|done].
    apply (cadence_step n k c w); [done | done | lia | done | done | lia].
Qed.

(** C2.  On a successful [SetProperty] or [ClearProperties] whose head delta
    is committed the write-count is incremented; when the incremented count
    exceeds [AnchorNum] it is reset to 1 and, with anchoring enabled, the
    edge's property map as the write finds it is stored in the calling
    transaction's archive under (edge gid, committed timestamp of the head
    delta).  Hence, with [AnchorNum = N >= 0] and anchoring enabled, on an
    edge whose count starts at 0 and with all archives empty, after any run
    of successful writes of which exactly [N + 1] found a committed head
    delta, the archives hold exactly one snapshot and the count is 1. *)
Theorem C2_anchor_cadence :
  (forall cells ea s head rest,
     delta (st_edge s) = head :: rest ->
     (cells (timestamp head) < kTransactionInitialId)%N ->
     let e := st_edge s in
     let archive := gid_anchor_edge_ (st_tx s) in
     forall s',
       ((exists property value r,
           SetProperty cells ea property value s = (Ok r, s'))
        \/ (exists r, ClearProperties cells ea s = (Ok r, s'))) ->
       let e' := st_edge s' in
       let archive' := gid_anchor_edge_ (st_tx s') in
       ((num e + 1 <= AnchorNum (config_ ea))%Z ->
        num e' = (num e + 1)%Z /\ archive' = archive)
       /\ ((AnchorNum (config_ ea) < num e + 1)%Z ->
           num e' = 1%Z
           /\ (AnchorFlag = true ->
               archive' =
               <[(gid e, cells (timestamp head)) := properties e]> archive)
           /\ (AnchorFlag = false -> archive' = archive)))
  /\ (forall (n : Z) cs w0 w,
        AnchorFlag = true ->
        (0 <= n)%Z ->
        num (world_edge w0) = 0%Z ->
        (forall p t, world_txs w0 !! p = Some t -> gid_anchor_edge_ t = ∅) ->
        Forall (fun c => AnchorNum (config_ (w_accessor c)) = n) cs ->
        run_calls cs w0 = Some (w, S (Z.to_nat n)) ->
        snapshots (world_txs w) = 1 /\ num (world_edge w) = 1%Z).
Proof.
  split.
  - intros cells ea s head rest Hd Hlt e archive s' Hrun e' archive'.
    subst e archive e' archive'.
    pose proof (anchor_bookkeeping cells ea (st_edge s) (st_tx s) head rest Hd Hlt)
      as Hbk.
    destruct Hrun as [(property & value & r & Hrun) | (r & Hrun)].
    + destruct (SetProperty_Ok_inv _ _ _ _ _ _ _ Hrun) as (Hon & Hp & Hdel).
      rewrite SetProperty_ok in Hrun by done. injection Hrun as _ <-. exact Hbk.
    + destruct (ClearProperties_Ok_inv _ _ _ _ _ Hrun) as (Hon & Hp & Hdel).
      rewrite ClearProperties_ok in Hrun by done. injection Hrun as _ <-. exact Hbk.
  - intros n cs w0 w Hflag Hn H0 Hempty Hall Hrun.
    assert (cadence n 0 w0) as Hinv.
    { unfold cadence. case_decide; [|lia]. done. }
    pose proof (cadence_run n cs Hflag Hall 0 w0 w (S (Z.to_nat n)) Hinv Hrun) as Hend.
    unfold cadence in Hend. case_decide as Hle; [lia|].
    destruct Hend as [Hone Hsnap]; [lia|].
    split; [by apply snapshots_one | done].
Qed.

(** *** The undo deltas of a write *)

Lemma elem_of_map_items (m : gmap N PropertyValue) k v :
  (k, v) ∈ map_items m <-> m !! k = Some v.
Proof. unfold map_items. rewrite merge_sort_Permutation. apply elem_of_map_to_list. Qed.

Lemma length_map_items (m : gmap N PropertyValue) : length (map_items m) = size m.
Proof. unfold map_items. rewrite merge_sort_Permutation. apply length_map_to_list. Qed.

Lemma map_items_sorted (m : gmap N PropertyValue) : Sorted key_le (map_items m).
Proof.
  unfold map_items. apply (Sorted_merge_sort key_le).
Qed.

Lemma elem_of_undo_deltas cells t e (m : gmap N PropertyValue) d :
  d ∈ reverse (map (fun p => undo_delta cells t e p.1 p.2) (map_items m)) <->
  exists k v, m !! k = Some v /\ d = undo_delta cells t e k v.
Proof.
  rewrite elem_of_reverse, list_elem_of_In, in_map_iff. split.
  - intros ([k v] & <- & Hin). exists k, v. split; [|done].
    by apply elem_of_map_items, list_elem_of_In.
  - intros (k & v & Hkv & ->). exists (k, v). split; [done|].
    by apply list_elem_of_In, elem_of_map_items.
Qed.

Lemma IsNull_true v : IsNull v = true -> v = PVNull.
Proof. by destruct v. Qed.

Lemma GetProperty_SetProperty (m : gmap N PropertyValue) property value :
  PropertyStore.GetProperty (PropertyStore.SetProperty property value m) property
  = value.
Proof.
  unfold PropertyStore.GetProperty, PropertyStore.SetProperty.
  destruct (IsNull value) eqn:Hnull.
  - rewrite lookup_delete_eq. simpl. symmetry. by apply IsNull_true.
  - by rewrite lookup_insert_eq.
Qed.

(** C4.  A successful [SetProperty key value] returns the value the key had
    before the call, has linked at the chain head one [SET_PROPERTY] delta
    recording the key and that value, and has then set the key to the new
    value in the live map: the link precedes the mutation in program order.
    A successful [ClearProperties] returns the property map as it was before
    the call, has linked one [SET_PROPERTY] delta per key of that map, each
    recording the key's prior value, and has then emptied the live map. *)
Theorem C4_undo_then_mutate cells ea s :
  let e := st_edge s in
  let t := st_tx s in
  (forall property value r s',
     SetProperty cells ea property value s = (Ok r, s') ->
     r = PropertyStore.GetProperty (properties e) property
     /\ (exists d,
           delta (st_edge s') = d :: delta e
           /\ action d = SET_PROPERTY
           /\ property_key d = property
           /\ property_value d = r
           /\ timestamp d = commit_timestamp t)
     /\ properties (st_edge s') =
        PropertyStore.SetProperty property value (properties e)
     /\ PropertyStore.GetProperty (properties (st_edge s')) property = value
     /\ st_trace s' =
        st_trace s ++
          [EvLock; EvLinkDelta (linked_delta t property r);
           EvSetLive property; EvUnlock])
  /\ (forall r s',
        ClearProperties cells ea s = (Ok r, s') ->
        r = properties e
        /\ (exists new,
              delta (st_edge s') = new ++ delta e
              /\ length new = size (properties e)
              /\ Forall (fun d => action d = SET_PROPERTY
                                  /\ timestamp d = commit_timestamp t) new
              /\ (forall k v,
                    properties e !! k = Some v <->
                    exists d, d ∈ new /\ property_key d = k /\ property_value d = v))
        /\ properties (st_edge s') = ∅
        /\ st_trace s' =
           st_trace s ++
             [EvLock]
             ++ map (fun p => EvLinkDelta (linked_delta t p.1 p.2))
                  (map_items (properties e))
             ++ [EvClearLive; EvUnlock]).
Proof.
  intros e t. subst e t. split.
  - intros property value r s' Hrun.
    destruct (SetProperty_Ok_inv _ _ _ _ _ _ _ Hrun) as (Hon & Hp & Hdel).
    rewrite SetProperty_ok in Hrun by done. injection Hrun as <- <-. simpl.
    split_and!; try done.
    + by eexists.
    + apply GetProperty_SetProperty.
  - intros r s' Hrun.
    destruct (ClearProperties_Ok_inv _ _ _ _ _ Hrun) as (Hon & Hp & Hdel).
    rewrite ClearProperties_ok in Hrun by done. injection Hrun as <- <-. simpl.
    split_and!; try done.
    eexists. split_and!; [done | | |].
    + by rewrite length_reverse, length_map, length_map_items.
    + apply Forall_forall. intros d Hd.
      apply elem_of_undo_deltas in Hd as (k & v & _ & ->). done.
    + intros k v. split.
      * intros Hkv. exists (undo_delta cells (st_tx s) (st_edge s) k v).
        split; [|done]. apply elem_of_undo_deltas. by exists k, v.
      * intros (d & Hd & <- & <-).
        by apply elem_of_undo_deltas in Hd as (k & v & Hkv & ->).
Qed.

(** C5 (amended).  Every delta created by a successful [SetProperty] or
    [ClearProperties] carries the edge's two endpoint ids, and in its
    [transaction_st] the timestamp of the version it overwrites: the edge's
    own [transaction_st] when there was no head delta, the commit timestamp
    of the head delta when that was committed, and the head delta's
    [transaction_st] when the head was the caller's own uncommitted delta. *)
Theorem C5_delta_endpoints_and_st cells ea s s' :
  let e := st_edge s in
  ((exists property value r, SetProperty cells ea property value s = (Ok r, s'))
   \/ (exists r, ClearProperties cells ea s = (Ok r, s'))) ->
  (exists new,
     delta (st_edge s') = new ++ delta e
     /\ Forall (fun d => d_from_gid d = from_gid e
                         /\ d_to_gid d = to_gid e
                         /\ d_transaction_st d = overwritten_ts cells e) new)
  /\ (delta e = [] -> overwritten_ts cells e = transaction_st e)
  /\ (forall head rest,
        delta e = head :: rest ->
        ((cells (timestamp head) < kTransactionInitialId)%N ->
         overwritten_ts cells e = cells (timestamp head))
        /\ ((kTransactionInitialId <= cells (timestamp head))%N ->
            cells (timestamp head) = transaction_id (st_tx s)
            /\ overwritten_ts cells e = d_transaction_st head)).
Proof.
  intros e Hrun. subst e.
  assert (PrepareForWrite cells (st_tx s) (st_edge s) = true) as Hp.
  { destruct Hrun as [(property & value & r & Hrun) | (r & Hrun)].
    - by destruct (SetProperty_Ok_inv _ _ _ _ _ _ _ Hrun) as (_ & ? & _).
    - by destruct (ClearProperties_Ok_inv _ _ _ _ _ Hrun) as (_ & ? & _). }
  split_and!.
  - destruct Hrun as [(property & value & r & Hrun) | (r & Hrun)].
    + destruct (SetProperty_Ok_inv _ _ _ _ _ _ _ Hrun) as (Hon & _ & Hdel).
      rewrite SetProperty_ok in Hrun by done. injection Hrun as _ <-. simpl.
      exists [undo_delta cells (st_tx s) (st_edge s) property
                (PropertyStore.GetProperty (properties (st_edge s)) property)].
      split; [done|]. by apply Forall_singleton.
    + destruct (ClearProperties_Ok_inv _ _ _ _ _ Hrun) as (Hon & _ & Hdel).
      rewrite ClearProperties_ok in Hrun by done. injection Hrun as _ <-. simpl.
      eexists. split; [done|]. apply Forall_forall. intros d Hd.
      by apply elem_of_undo_deltas in Hd as (k & v & _ & ->).
  - unfold overwritten_ts. by intros ->.
  - intros head rest Hd. unfold overwritten_ts. rewrite Hd.
    unfold PrepareForWrite in Hp. rewrite Hd in Hp.
    destruct (N.leb_spec kTransactionInitialId (cells (timestamp head))) as [Hle|Hlt].
    + split; [lia|]. intros _. split; [|done]. by apply N.eqb_eq.
    + split; [done|lia].
Qed.

(** ** Further properties of the reads *)

Lemma undo_value_lookup property d (m : gmap N PropertyValue) :
  undo_value property d (PropertyStore.GetProperty m property) =
  PropertyStore.GetProperty (undo_property d m) property.
Proof.
  unfold undo_value, PropertyStore.GetProperty. rewrite undo_property_lookup.
  destruct (N.eqb_spec (property_key d) property) as [<- | Hne].
  - rewrite decide_True by done.
    destruct (IsNull (property_value d)) eqn:Hnull; [|done].
    simpl. by apply IsNull_true.
  - by rewrite decide_False by done.
Qed.

Lemma replay_value_of_map property ds ex del (m : gmap N PropertyValue) :
  fold_left (replay_step (undo_value property)) ds
    (ex, del, PropertyStore.GetProperty m property) =
  (let '(ex', del', m') := fold_left (replay_step undo_property) ds (ex, del, m) in
   (ex', del', PropertyStore.GetProperty m' property)).
Proof.
  revert ex del m. induction ds as [|d ds IH]; intros ex del m; cbn [fold_left];
    [done|].
  unfold replay_step at 2 4. destruct (action d); try apply IH.
  rewrite undo_value_lookup. apply IH.
Qed.

(** X1.  [GetProperty] and [Properties] agree: on every edge, view and
    configuration, [GetProperty key] fails exactly when [Properties] fails,
    with the same error, and otherwise returns the value the map returned by
    [Properties] holds for the key, null when the key is not in it. *)
Theorem GetProperty_agrees_with_Properties cells ea property view s :
  (GetProperty cells ea property view s).1 =
  match (Properties cells ea view s).1 with
  | Ok m => Ok (default PVNull (m !! property))
  | Err e => Err e
  end.
Proof.
  destruct (properties_on_edges (config_ ea)) eqn:Hon.
  - rewrite GetProperty_enabled, Properties_enabled by done. simpl.
    unfold replay. rewrite replay_value_of_map.
    destruct (fold_left _ _ _) as [[ex del] m]. unfold read_result.
    destruct ex; simpl; [|done]. by destruct (negb (for_deleted_ ea) && del).
  - unfold GetProperty, Properties. by rewrite Hon.
Qed.

Lemma IsVisible_lifecycle {S : Type} (undo : Delta -> S -> S) ds ex del x :
  fold_left (fun st d => IsVisible_callback d st) ds (ex, del) =
  (fold_left (replay_step undo) ds (ex, del, x)).1.
Proof.
  revert ex del x. induction ds as [|d ds IH]; intros ex del x; cbn [fold_left];
    [done|].
  unfold IsVisible_callback at 2, replay_step at 2. destruct (action d); apply IH.
Qed.

Lemma read_result_Ok {S : Type} for_deleted ex del (x : S) :
  (exists y, read_result for_deleted (ex, del, x) = Ok y) <->
  ex && (for_deleted || negb del) = true.
Proof.
  unfold read_result. destruct ex, for_deleted, del; simpl; split;
    first [ done | by intros [y Hy] | by eexists ].
Qed.

(** X2.  With properties on edges enabled, [IsVisible] returns true exactly when
    [GetProperty] (for any key) and [Properties] return a value rather than
    [NONEXISTENT_OBJECT] or [DELETED_OBJECT], for the same transaction, view
    and accessor. *)
Theorem IsVisible_iff_reads_succeed cells ea property view s :
  properties_on_edges (config_ ea) = true ->
  ((IsVisible cells ea view s).1 = Ok true <->
   exists v, (GetProperty cells ea property view s).1 = Ok v)
  /\ ((IsVisible cells ea view s).1 = Ok true <->
      exists m, (Properties cells ea view s).1 = Ok m).
Proof.
  intros Hon.
  rewrite IsVisible_run, GetProperty_enabled, Properties_enabled by done.
  rewrite ApplyDeltasForRead_applicable. unfold replay. cbn [fst].
  split.
  - rewrite (IsVisible_lifecycle (undo_value property) _ _ _
               (PropertyStore.GetProperty (properties (st_edge s)) property)).
    destruct (fold_left _ _ _) as [[ex del] v]. cbn [fst].
    rewrite read_result_Ok. split; [by intros [= ->] | by intros ->].
  - rewrite (IsVisible_lifecycle undo_property _ _ _ (properties (st_edge s))).
    destruct (fold_left _ _ _) as [[ex del] m]. cbn [fst].
    rewrite read_result_Ok. split; [by intros [= ->] | by intros ->].
Qed.

Lemma undo_property_no_null d (m : gmap N PropertyValue) :
  no_null m -> no_null (undo_property d m).
Proof.
  intros Hm. unfold undo_property.
  destruct (IsNull (property_value d)) eqn:Hnull.
  - by apply map_Forall_delete.
  - by apply map_Forall_insert_2.
Qed.

Lemma replay_no_null ds ex del (m : gmap N PropertyValue) :
  no_null m -> no_null (fold_left (replay_step undo_property) ds (ex, del, m)).2.
Proof.
  revert ex del m. induction ds as [|d ds IH]; intros ex del m Hm; cbn [fold_left];
    [done|].
  unfold replay_step at 2. destruct (action d); try by apply IH.
  by apply IH, undo_property_no_null.
Qed.

(** X3.  [Properties] never returns a key bound to a null value when the live
    property map holds none: undoing a delta whose prior value is null
    removes the key instead of binding it to null. *)
Theorem Properties_returns_no_null cells ea view s m :
  no_null (properties (st_edge s)) ->
  (Properties cells ea view s).1 = Ok m ->
  no_null m.
Proof.
  intros Hlive. destruct (properties_on_edges (config_ ea)) eqn:Hon.
  - rewrite Properties_enabled by done. simpl. unfold replay.
    pose proof (replay_no_null
                  (applicable cells (st_tx s) (delta (st_edge s)) view)
                  true (deleted (st_edge s)) _ Hlive) as Hm.
    destruct (fold_left _ _ _) as [[ex del] m']. unfold read_result.
    destruct ex; simpl; [|done].
    destruct (negb (for_deleted_ ea) && del); [done|]. by intros [= <-].
  - unfold Properties. rewrite Hon. simpl. intros [= <-]. apply map_Forall_empty.
Qed.

Lemma applicable_stops cells t view chain :
  stops_at cells t view chain -> applicable cells t chain view = [].
Proof. destruct chain as [|head rest]; simpl; [done|]. by intros ->. Qed.

Lemma applicable_app cells t view new old :
  Forall (fun d => in_past cells t view d = false) new ->
  applicable cells t (new ++ old) view = new ++ applicable cells t old view.
Proof.
  induction 1 as [|d new Hd _ IH]; simpl; [done|]. by rewrite Hd, IH.
Qed.

(** X4.  When the chain is empty or its head delta is in the reader's past, the
    reads return the live state as it is: [Properties] the live map,
    [GetProperty] the live value of the key, which is a successful null for a
    key the edge does not have, and [IsVisible] true; unless the edge is
    deleted and the accessor is not in include-deleted mode, when the two
    property reads return [DELETED_OBJECT] and [IsVisible] false.  No delta
    is visited. *)
Theorem reads_return_live_state cells ea property view s :
  properties_on_edges (config_ ea) = true ->
  stops_at cells (st_tx s) view (delta (st_edge s)) ->
  let e := st_edge s in
  let after := log [EvLock; EvSnapshot; EvUnlock] s in
  (deleted e = false \/ for_deleted_ ea = true ->
   Properties cells ea view s = (Ok (properties e), after)
   /\ GetProperty cells ea property view s
      = (Ok (default PVNull (properties e !! property)), after)
   /\ IsVisible cells ea view s = (Ok true, after))
  /\ (deleted e = true -> for_deleted_ ea = false ->
      Properties cells ea view s = (Err DELETED_OBJECT, after)
      /\ GetProperty cells ea property view s = (Err DELETED_OBJECT, after)
      /\ IsVisible cells ea view s = (Ok false, after)).
Proof.
  intros Hon Hstop e after. subst e after.
  rewrite Properties_enabled, GetProperty_enabled, IsVisible_run by done.
  rewrite ApplyDeltasForRead_applicable.
  rewrite (applicable_stops _ _ _ _ Hstop). simpl.
  unfold replay, PropertyStore.GetProperty. simpl. split.
  - intros [-> | ->]; [by rewrite andb_false_r, orb_true_r|].
    simpl. done.
  - by intros -> ->.
Qed.

(** ** Further properties of the writes *)

(** The outcome of a write, by cases. *)
Lemma SetProperty_cases cells ea property value s :
  (properties_on_edges (config_ ea) = false
   /\ SetProperty cells ea property value s = (Err PROPERTIES_DISABLED, s))
  \/ (properties_on_edges (config_ ea) = true
      /\ PrepareForWrite cells (st_tx s) (st_edge s) = false
      /\ SetProperty cells ea property value s
         = (Err SERIALIZATION_ERROR, log [EvLock; EvUnlock] s))
  \/ (properties_on_edges (config_ ea) = true
      /\ PrepareForWrite cells (st_tx s) (st_edge s) = true
      /\ deleted (st_edge s) = true
      /\ SetProperty cells ea property value s
         = (Err DELETED_OBJECT, log [EvLock; EvUnlock] s))
  \/ (properties_on_edges (config_ ea) = true
      /\ PrepareForWrite cells (st_tx s) (st_edge s) = true
      /\ deleted (st_edge s) = false
      /\ exists r s', SetProperty cells ea property value s = (Ok r, s')).
Proof.
  destruct (properties_on_edges (config_ ea)) eqn:Hon; cycle 1.
  { left. split; [done|]. unfold SetProperty. by rewrite Hon. }
  right. destruct (PrepareForWrite cells (st_tx s) (st_edge s)) eqn:Hp; cycle 1.
  { left. by rewrite SetProperty_rejected. }
  right. destruct (deleted (st_edge s)) eqn:Hd.
  { left. by rewrite SetProperty_deleted. }
  right. rewrite SetProperty_ok by done. split_and!; try done. by eexists _, _.
Qed.

Lemma ClearProperties_cases cells ea s :
  (properties_on_edges (config_ ea) = false
   /\ ClearProperties cells ea s = (Err PROPERTIES_DISABLED, s))
  \/ (properties_on_edges (config_ ea) = true
      /\ PrepareForWrite cells (st_tx s) (st_edge s) = false
      /\ ClearProperties cells ea s
         = (Err SERIALIZATION_ERROR, log [EvLock; EvUnlock] s))
  \/ (properties_on_edges (config_ ea) = true
      /\ PrepareForWrite cells (st_tx s) (st_edge s) = true
      /\ deleted (st_edge s) = true
      /\ ClearProperties cells ea s
         = (Err DELETED_OBJECT, log [EvLock; EvUnlock] s))
  \/ (properties_on_edges (config_ ea) = true
      /\ PrepareForWrite cells (st_tx s) (st_edge s) = true
      /\ deleted (st_edge s) = false
      /\ exists r s', ClearProperties cells ea s = (Ok r, s')).
Proof.
  destruct (properties_on_edges (config_ ea)) eqn:Hon; cycle 1.
  { left. split; [done|]. unfold ClearProperties. by rewrite Hon. }
  right. destruct (PrepareForWrite cells (st_tx s) (st_edge s)) eqn:Hp; cycle 1.
  { left. by rewrite ClearProperties_rejected. }
  right. destruct (deleted (st_edge s)) eqn:Hd.
  { left. by rewrite ClearProperties_deleted. }
  right. rewrite ClearProperties_ok by done. split_and!; try done. by eexists _, _.
Qed.

(** X5.  A write that returns an error has changed nothing: the edge and the
    transaction are as before the call, whichever of the three errors it is;
    a write never returns [NONEXISTENT_OBJECT]. *)
Theorem failed_write_changes_nothing cells ea property value s err s' :
  SetProperty cells ea property value s = (Err err, s')
  \/ ClearProperties cells ea s = (Err err, s') ->
  st_edge s' = st_edge s
  /\ st_tx s' = st_tx s
  /\ err <> NONEXISTENT_OBJECT.
Proof.
  intros [Hrun | Hrun].
  - destruct (SetProperty_cases cells ea property value s)
      as [(_ & H) | [(_ & _ & H) | [(_ & _ & _ & H) | (_ & _ & _ & r & s2 & H)]]];
      rewrite H in Hrun; by simplify_eq.
  - destruct (ClearProperties_cases cells ea s)
      as [(_ & H) | [(_ & _ & H) | [(_ & _ & _ & H) | (_ & _ & _ & r & s2 & H)]]];
      rewrite H in Hrun; by simplify_eq.
Qed.

(** X6.  [SetProperty] and [ClearProperties] fail on the same inputs and with the
    same error: whether a write is refused depends on the configuration, the
    head delta and the deleted flag, not on which of the two it is nor on
    the key and value. *)
Theorem writes_fail_alike cells ea property value s err :
  (SetProperty cells ea property value s).1 = Err err <->
  (ClearProperties cells ea s).1 = Err err.
Proof.
  destruct (SetProperty_cases cells ea property value s)
    as [(Hon & H) | [(Hon & Hp & H) | [(Hon & Hp & Hd & H) | (Hon & Hp & Hd & _)]]].
  - rewrite H. unfold ClearProperties. rewrite Hon. simpl.
    split; by intros [= <-].
  - rewrite H, ClearProperties_rejected by done. simpl. split; by intros [= <-].
  - rewrite H, ClearProperties_deleted by done. simpl. split; by intros [= <-].
  - rewrite SetProperty_ok, ClearProperties_ok by done. simpl.
    split; intros [=].
Qed.

(** X7.  A write to a deleted edge, with properties on edges enabled, returns
    [DELETED_OBJECT] when the validator lets it through (no head delta, the
    caller's own head, or a committed head), and [SERIALIZATION_ERROR] when
    the head belongs to another running transaction: the conflict is
    reported before the deletion. *)
Theorem write_to_deleted_edge cells ea property value s :
  properties_on_edges (config_ ea) = true ->
  deleted (st_edge s) = true ->
  let e := st_edge s in
  let t := st_tx s in
  (delta e = []
   \/ (exists head rest, delta e = head :: rest
         /\ (cells (timestamp head) = transaction_id t
             \/ (cells (timestamp head) < kTransactionInitialId)%N)) ->
   (SetProperty cells ea property value s).1 = Err DELETED_OBJECT
   /\ (ClearProperties cells ea s).1 = Err DELETED_OBJECT)
  /\ (forall head rest,
        delta e = head :: rest ->
        (kTransactionInitialId <= cells (timestamp head))%N ->
        cells (timestamp head) <> transaction_id t ->
        (SetProperty cells ea property value s).1 = Err SERIALIZATION_ERROR
        /\ (ClearProperties cells ea s).1 = Err SERIALIZATION_ERROR).
Proof.
  intros Hon Hdel e t. split.
  - intros Hcase. apply PrepareForWrite_permitted with (t := t) in Hcase.
    by rewrite SetProperty_deleted, ClearProperties_deleted.
  - intros head rest Hd Hle Hne.
    assert (PrepareForWrite cells t e = false) as Hp.
    { apply PrepareForWrite_false. by exists head, rest. }
    by rewrite SetProperty_rejected, ClearProperties_rejected.
Qed.

Lemma notified_tx_fields cells ea e t :
  transaction_id (notified_tx cells ea e t) = transaction_id t
  /\ start_timestamp (notified_tx cells ea e t) = start_timestamp t
  /\ commit_timestamp (notified_tx cells ea e t) = commit_timestamp t
  /\ prinfEdge_ (notified_tx cells ea e t) =
     prinfEdge_ t ++
       (if prinfFlag && printf_of cells e
        then [mkPrinfEdge (edge_type_ ea) (gid e) (from_gid e) (to_gid e)
                (overwritten_ts cells e) (properties e)]
        else []).
Proof.
  unfold notified_tx, bookkept_tx.
  destruct (prinfFlag && _), (_ && _ && AnchorFlag); simpl;
    by rewrite ?app_nil_r.
Qed.

(** What a successful write leaves behind, for both writes at once: the
    chain has grown by the undo deltas [new] at its head, and the rest of
    the edge and the transaction are as the bookkeeping left them. *)
Lemma write_Ok_state cells ea s s' :
  (exists property value r, SetProperty cells ea property value s = (Ok r, s'))
  \/ (exists r, ClearProperties cells ea s = (Ok r, s')) ->
  properties_on_edges (config_ ea) = true
  /\ PrepareForWrite cells (st_tx s) (st_edge s) = true
  /\ deleted (st_edge s) = false
  /\ st_tx s' = notified_tx cells ea (st_edge s) (st_tx s)
  /\ exists new ps,
       st_edge s' =
         set_properties ps
           (set_delta (new ++ delta (st_edge s)) (bookkept_edge cells ea (st_edge s)))
       /\ Forall (fun d => exists k v,
                    d = undo_delta cells (st_tx s) (st_edge s) k v) new.
Proof.
  intros [(property & value & r & Hrun) | (r & Hrun)].
  - destruct (SetProperty_Ok_inv _ _ _ _ _ _ _ Hrun) as (Hon & Hp & Hdel).
    rewrite SetProperty_ok in Hrun by done. injection Hrun as _ <-.
    split_and!; try done. eexists [_], _. split; [done|].
    apply Forall_singleton. by eexists _, _.
  - destruct (ClearProperties_Ok_inv _ _ _ _ _ Hrun) as (Hon & Hp & Hdel).
    rewrite ClearProperties_ok in Hrun by done. injection Hrun as _ <-.
    split_and!; try done. eexists _, _. split; [done|].
    apply Forall_forall. intros d Hd.
    apply elem_of_undo_deltas in Hd as (k & v & _ & ->). by exists k, v.
Qed.

(** A write either fails and leaves the edge and the transaction alone, or
    succeeds. *)
Lemma write_outcome cells ea property value s s' :
  (exists r, SetProperty cells ea property value s = (r, s'))
  \/ (exists r, ClearProperties cells ea s = (r, s')) ->
  (st_edge s' = st_edge s /\ st_tx s' = st_tx s)
  \/ ((exists property value r, SetProperty cells ea property value s = (Ok r, s'))
      \/ (exists r, ClearProperties cells ea s = (Ok r, s'))).
Proof.
  intros [(r & Hrun) | (r & Hrun)].
  - destruct (SetProperty_cases cells ea property value s)
      as [(_ & H) | [(_ & _ & H) | [(_ & _ & _ & H) | (_ & _ & _ & r2 & s2 & H)]]];
      rewrite H in Hrun; simplify_eq; [by left.. |].
    right. left. by eexists _, _, _.
  - destruct (ClearProperties_cases cells ea s)
      as [(_ & H) | [(_ & _ & H) | [(_ & _ & _ & H) | (_ & _ & _ & r2 & s2 & H)]]];
      rewrite H in Hrun; simplify_eq; [by left.. |].
    right. right. by eexists.
Qed.

(** X8.  Whatever a write returns, it leaves the identity of the edge (gid,
    endpoints, deleted flag, [transaction_st]) and of the transaction (id,
    start timestamp, timestamp cell) as they were, the former chain is a
    suffix of the new one (deltas are only linked at the head, none is
    removed or altered), and the notifications already in the transaction's
    buffer are a prefix of the new buffer. *)
Theorem writes_only_prepend cells ea property value s s' :
  (exists r, SetProperty cells ea property value s = (r, s'))
  \/ (exists r, ClearProperties cells ea s = (r, s')) ->
  let e := st_edge s in
  let e' := st_edge s' in
  gid e' = gid e /\ from_gid e' = from_gid e /\ to_gid e' = to_gid e
  /\ deleted e' = deleted e /\ transaction_st e' = transaction_st e
  /\ transaction_id (st_tx s') = transaction_id (st_tx s)
  /\ start_timestamp (st_tx s') = start_timestamp (st_tx s)
  /\ commit_timestamp (st_tx s') = commit_timestamp (st_tx s)
  /\ delta e `suffix_of` delta e'
  /\ prinfEdge_ (st_tx s) `prefix_of` prinfEdge_ (st_tx s').
Proof.
  intros Hrun e e'. subst e e'.
  destruct (write_outcome cells ea property value s s' Hrun) as [[-> ->] | Hok].
  { split_and!; done. }
  destruct (write_Ok_state cells ea s s' Hok)
    as (_ & _ & _ & -> & new & ps & -> & _).
  destruct (bookkept_edge_fields cells ea (st_edge s))
    as (Hg & Hf & Ht & _ & _ & Hdel & Hst).
  destruct (notified_tx_fields cells ea (st_edge s) (st_tx s)) as (Hid & Hs & Hc & Hpr).
  simpl. split_and!; try done.
  - by apply suffix_app_r.
  - rewrite Hpr. by apply prefix_app_r.
Qed.

(** X9.  The write-count stays within its range: whatever a write returns, a
    count that was not negative is not negative afterwards, and a count that
    did not exceed the larger of 1 and [AnchorNum] does not exceed it
    afterwards. *)
Theorem write_count_bounded cells ea property value s s' :
  (exists r, SetProperty cells ea property value s = (r, s'))
  \/ (exists r, ClearProperties cells ea s = (r, s')) ->
  ((0 <= num (st_edge s))%Z -> (0 <= num (st_edge s'))%Z)
  /\ ((num (st_edge s) <= Z.max 1 (AnchorNum (config_ ea)))%Z ->
      (num (st_edge s') <= Z.max 1 (AnchorNum (config_ ea)))%Z).
Proof.
  intros Hrun.
  destruct (write_outcome cells ea property value s s' Hrun) as [[-> _] | Hok];
    [done|].
  destruct (write_Ok_state cells ea s s' Hok)
    as (_ & _ & _ & _ & new & ps & -> & _).
  simpl. unfold bookkept_edge, counted.
  destruct (head_committed cells (st_edge s)); [|done]. simpl.
  destruct (Z.ltb_spec (AnchorNum (config_ ea)) (num (st_edge s) + 1)); lia.
Qed.

(** X10.  The anchor bookkeeping runs only over a committed head: a successful
    write on an edge without delta, or whose head delta is the caller's own
    uncommitted one, leaves the write-count and the archive as they were. *)
Theorem bookkeeping_only_over_committed_head cells ea s s' :
  (exists property value r, SetProperty cells ea property value s = (Ok r, s'))
  \/ (exists r, ClearProperties cells ea s = (Ok r, s')) ->
  (delta (st_edge s) = []
   \/ exists head rest, delta (st_edge s) = head :: rest
        /\ (kTransactionInitialId <= cells (timestamp head))%N) ->
  num (st_edge s') = num (st_edge s)
  /\ gid_anchor_edge_ (st_tx s') = gid_anchor_edge_ (st_tx s).
Proof.
  intros Hok Hhead.
  assert (head_committed cells (st_edge s) = false) as Hc.
  { unfold head_committed.
    destruct Hhead as [-> | (head & rest & -> & Hle)]; [done|].
    by apply N.ltb_ge. }
  destruct (write_Ok_state cells ea s s' Hok)
    as (_ & _ & _ & -> & new & ps & -> & _).
  rewrite notified_tx_archive.
  destruct (bookkeeping_not_committed cells ea (st_edge s) (st_tx s) Hc) as [-> ->].
  done.
Qed.

(** X11.  The change notification of a successful write: with [prinfFlag] set, a
    write on an edge without delta or over a committed head appends exactly
    one record to the transaction's buffer, holding the edge type of the
    accessor, the edge's gid and endpoint ids, the timestamp of the
    overwritten version and the property map as it was before the write; a
    write over the caller's own head, or any write with [prinfFlag] unset,
    appends nothing. *)
Theorem change_notification cells ea s s' :
  (exists property value r, SetProperty cells ea property value s = (Ok r, s'))
  \/ (exists r, ClearProperties cells ea s = (Ok r, s')) ->
  let e := st_edge s in
  let buffer := prinfEdge_ (st_tx s) in
  let buffer' := prinfEdge_ (st_tx s') in
  (prinfFlag = false -> buffer' = buffer)
  /\ (forall head rest,
        delta e = head :: rest ->
        (kTransactionInitialId <= cells (timestamp head))%N ->
        buffer' = buffer)
  /\ (prinfFlag = true ->
      delta e = []
      \/ (exists head rest, delta e = head :: rest
            /\ (cells (timestamp head) < kTransactionInitialId)%N) ->
      buffer' =
      buffer ++ [mkPrinfEdge (edge_type_ ea) (gid e) (from_gid e) (to_gid e)
                   (overwritten_ts cells e) (properties e)]).
Proof.
  intros Hok e buffer buffer'. subst e buffer buffer'.
  destruct (write_Ok_state cells ea s s' Hok) as (_ & _ & _ & -> & _).
  destruct (notified_tx_fields cells ea (st_edge s) (st_tx s)) as (_ & _ & _ & ->).
  split_and!.
  - intros ->. simpl. by rewrite app_nil_r.
  - intros head rest Hd Hle. unfold printf_of, head_committed. rewrite Hd.
    replace (cells (timestamp head) <? kTransactionInitialId)%N with false
      by (symmetry; by apply N.ltb_ge).
    by rewrite andb_false_r, app_nil_r.
  - intros -> Hhead. simpl. unfold printf_of, head_committed.
    destruct Hhead as [-> | (head & rest & -> & Hlt)]; [done|].
    by replace (cells (timestamp head) <? kTransactionInitialId)%N with true
      by (symmetry; by apply N.ltb_lt).
Qed.

(** X12.  The cadence from any starting count: with anchoring enabled, a threshold
    [n], a write-count [c] with [0 <= c <= n] and empty archives, a run of
    successful writes of which [j] found a committed head captures no
    snapshot and leaves the count at [c + j] as long as [c + j <= n], and
    has captured exactly one snapshot and reset the count to 1 when
    [c + j = n + 1].  Starting from the count 1 that a capture leaves, the
    next capture therefore comes with the [n]-th such write. *)
Theorem cadence_from_any_count (n : Z) cs w0 w j :
  AnchorFlag = true ->
  (0 <= num (world_edge w0) <= n)%Z ->
  (forall p t, world_txs w0 !! p = Some t -> gid_anchor_edge_ t = ∅) ->
  Forall (fun c => AnchorNum (config_ (w_accessor c)) = n) cs ->
  run_calls cs w0 = Some (w, j) ->
  ((num (world_edge w0) + Z.of_nat j <= n)%Z ->
   snapshots (world_txs w) = 0
   /\ num (world_edge w) = (num (world_edge w0) + Z.of_nat j)%Z)
  /\ ((num (world_edge w0) + Z.of_nat j = n + 1)%Z ->
      snapshots (world_txs w) = 1 /\ num (world_edge w) = 1%Z).
Proof.
  intros Hflag Hc Hempty Hall Hrun.
  set (c := Z.to_nat (num (world_edge w0))).
  assert (cadence n c w0) as Hinv.
  { unfold cadence. case_decide; [|lia]. split; [lia | done]. }
  split; intros Hj.
  - pose proof (cadence_run n cs Hflag Hall c w0 w j Hinv Hrun) as Hend.
    unfold cadence in Hend. case_decide; [|lia].
    destruct Hend as [Hnum Hnone]; [lia|].
    split; [by apply snapshots_none | lia].
  - pose proof (cadence_run n cs Hflag Hall c w0 w j Hinv Hrun) as Hend.
    unfold cadence in Hend. case_decide; [lia|].
    destruct Hend as [Hnum Hone]; [lia|].
    split; [by apply snapshots_one | done].
Qed.

(** ** Writes followed by reads *)

Lemma undo_of_SetProperty d (m : gmap N PropertyValue) property value :
  property_key d = property ->
  property_value d = PropertyStore.GetProperty m property ->
  no_null m ->
  undo_property d (PropertyStore.SetProperty property value m) = m.
Proof.
  intros Hk Hv Hm. apply map_eq. intros i. rewrite undo_property_lookup, Hk, Hv.
  unfold PropertyStore.GetProperty, PropertyStore.SetProperty.
  case_decide as Hi.
  - subst i. destruct (m !! property) as [x|] eqn:Hx; simpl; [|done].
    by rewrite (map_Forall_lookup_1 _ _ _ _ Hm Hx).
  - destruct (IsNull value).
    + by rewrite lookup_delete_ne.
    + by rewrite lookup_insert_ne.
Qed.

Lemma fold_left_reverse {A B : Type} (g : A -> B -> A) (l : list B) (a : A) :
  fold_left g (reverse l) a = fold_right (fun x acc => g acc x) a l.
Proof.
  revert a. induction l as [|x l IH]; intros a; [done|].
  rewrite reverse_cons, fold_left_app. simpl. by rewrite IH.
Qed.

Lemma map_reverse {A B : Type} (f : A -> B) (l : list A) :
  reverse (map f l) = map f (reverse l).
Proof.
  induction l as [|x l IH]; [done|].
  simpl. by rewrite !reverse_cons, map_app, IH.
Qed.

Lemma replay_of_undo_deltas cells t e (l : list (N * PropertyValue)) ex del
    (acc : gmap N PropertyValue) :
  Forall (fun p => IsNull p.2 = false) l ->
  fold_left (replay_step undo_property)
    (map (fun p => undo_delta cells t e p.1 p.2) l) (ex, del, acc) =
  (ex, del, fold_left (fun a p => <[p.1 := p.2]> a) l acc).
Proof.
  intros Hl. revert acc. induction Hl as [|p l Hp _ IH]; intros acc; [done|].
  simpl. unfold undo_property. simpl. rewrite Hp. apply IH.
Qed.

Lemma list_to_map_items (m : gmap N PropertyValue) :
  list_to_map (map_items m) = m.
Proof.
  rewrite <- (list_to_map_to_list m) at 2. unfold map_items.
  apply list_to_map_proper; [|apply merge_sort_Permutation].
  rewrite merge_sort_Permutation. apply NoDup_fst_map_to_list.
Qed.

Lemma undo_of_ClearProperties cells t e (m : gmap N PropertyValue) ex del :
  no_null m ->
  fold_left (replay_step undo_property)
    (reverse (map (fun p => undo_delta cells t e p.1 p.2) (map_items m)))
    (ex, del, ∅) = (ex, del, m).
Proof.
  intros Hm. rewrite map_reverse, replay_of_undo_deltas.
  - rewrite fold_left_reverse. f_equal. apply list_to_map_items.
  - apply Forall_forall. intros [k v] Hkv. rewrite elem_of_reverse in Hkv.
    apply elem_of_map_items in Hkv. simpl.
    by apply (map_Forall_lookup_1 _ _ _ _ Hm Hkv).
Qed.

(** The two property reads from the outcome of the replay. *)
Lemma reads_of_replay cells ea property view s ex del (m : gmap N PropertyValue) :
  properties_on_edges (config_ ea) = true ->
  fold_left (replay_step undo_property)
    (applicable cells (st_tx s) (delta (st_edge s)) view)
    (true, deleted (st_edge s), properties (st_edge s)) = (ex, del, m) ->
  (Properties cells ea view s).1 = read_result (for_deleted_ ea) (ex, del, m)
  /\ (GetProperty cells ea property view s).1
     = read_result (for_deleted_ ea) (ex, del, default PVNull (m !! property)).
Proof.
  intros Hon Hfold.
  rewrite Properties_enabled, GetProperty_enabled by done. simpl.
  unfold replay. by rewrite replay_value_of_map, Hfold.
Qed.

(** X13.  The undo round trip of an uncommitted write.  After a successful
    [SetProperty] or [ClearProperties] on an edge whose live map holds no
    null value, a reader for whom the deltas linked by the write are not in
    the past, and whose walk stops at the former chain, gets from
    [Properties] exactly the property map as it was before the write, and
    from [GetProperty] the value each key had before the write. *)
Theorem uncommitted_write_is_undone cells ea s s' new
    cells' ea' view t' tr property :
  (exists property value r, SetProperty cells ea property value s = (Ok r, s'))
  \/ (exists r, ClearProperties cells ea s = (Ok r, s')) ->
  delta (st_edge s') = new ++ delta (st_edge s) ->
  no_null (properties (st_edge s)) ->
  properties_on_edges (config_ ea') = true ->
  Forall (fun d => in_past cells' t' view d = false) new ->
  stops_at cells' t' view (delta (st_edge s)) ->
  (Properties cells' ea' view (mkSt (st_edge s') t' tr)).1
  = Ok (properties (st_edge s))
  /\ (GetProperty cells' ea' property view (mkSt (st_edge s') t' tr)).1
     = Ok (default PVNull (properties (st_edge s) !! property)).
Proof.
  intros Hok Hnew Hm Hon' Hfresh Hstop.
  assert (fold_left (replay_step undo_property)
            (applicable cells' t' (delta (st_edge s')) view)
            (true, deleted (st_edge s'), properties (st_edge s'))
          = (true, false, properties (st_edge s))) as Hfold.
  { rewrite Hnew, applicable_app, (applicable_stops _ _ _ _ Hstop), app_nil_r
      by done.
    destruct (bookkept_edge_fields cells ea (st_edge s))
      as (_ & _ & _ & _ & _ & Hdel & _).
    destruct Hok as [(k & v & r & Hrun) | (r & Hrun)].
    - destruct (SetProperty_Ok_inv _ _ _ _ _ _ _ Hrun) as (Hon & Hp & Hd).
      rewrite SetProperty_ok in Hrun by done. injection Hrun as _ <-.
      simpl in Hnew. apply (app_inv_tail _ [_]) in Hnew as <-.
      simpl. rewrite Hdel, Hd. unfold replay_step. simpl.
      by rewrite undo_of_SetProperty.
    - destruct (ClearProperties_Ok_inv _ _ _ _ _ Hrun) as (Hon & Hp & Hd).
      rewrite ClearProperties_ok in Hrun by done. injection Hrun as _ <-.
      simpl in Hnew. apply app_inv_tail in Hnew as <-.
      simpl. rewrite Hdel, Hd. by apply undo_of_ClearProperties. }
  destruct (reads_of_replay cells' ea' property view (mkSt (st_edge s') t' tr)
              true false (properties (st_edge s)) Hon' Hfold) as [-> ->].
  unfold read_result. simpl. by rewrite andb_false_r.
Qed.

(** X14.  Reading one's own write.  After a successful [SetProperty key value], a
    reader whose walk stops at the new chain head (the head delta is in its
    past) gets the new value from [GetProperty key], and from [Properties]
    the live map with the key set to it. *)
Theorem read_your_own_write cells ea property value s r s'
    cells' ea' view t' tr :
  SetProperty cells ea property value s = (Ok r, s') ->
  properties_on_edges (config_ ea') = true ->
  stops_at cells' t' view (delta (st_edge s')) ->
  (GetProperty cells' ea' property view (mkSt (st_edge s') t' tr)).1 = Ok value
  /\ (Properties cells' ea' view (mkSt (st_edge s') t' tr)).1
     = Ok (PropertyStore.SetProperty property value (properties (st_edge s))).
Proof.
  intros Hrun Hon' Hstop.
  destruct (SetProperty_Ok_inv _ _ _ _ _ _ _ Hrun) as (Hon & Hp & Hd).
  rewrite SetProperty_ok in Hrun by done. injection Hrun as _ <-.
  destruct (bookkept_edge_fields cells ea (st_edge s))
    as (_ & _ & _ & _ & _ & Hdel & _).
  set (e' := set_properties _ _) in *. cbn [st_edge] in Hstop |- *.
  assert (fold_left (replay_step undo_property)
            (applicable cells' t' (delta e') view)
            (true, deleted e', properties e')
          = (true, false,
             PropertyStore.SetProperty property value (properties (st_edge s))))
    as Hfold.
  { rewrite (applicable_stops _ _ _ _ Hstop). subst e'. simpl.
    by rewrite Hdel, Hd. }
  destruct (reads_of_replay cells' ea' property view (mkSt e' t' tr)
              true false _ Hon' Hfold) as [-> ->].
  unfold read_result. simpl. rewrite andb_false_r. split; [|done].
  f_equal. apply GetProperty_SetProperty.
Qed.

(** X15.  First writer wins, end to end.  After a successful write that has linked
    a delta, by a transaction that is still running, a write to the edge by
    a transaction with another id returns [SERIALIZATION_ERROR], whichever
    of the two writes it is, while a further write by the same transaction
    is not refused with that error. *)
Theorem first_writer_blocks_others cells ea s s' ea' t' tr property value :
  (exists property value r, SetProperty cells ea property value s = (Ok r, s'))
  \/ (exists r, ClearProperties cells ea s = (Ok r, s')) ->
  delta (st_edge s') <> delta (st_edge s) ->
  running cells (st_tx s) ->
  properties_on_edges (config_ ea') = true ->
  let s2 := mkSt (st_edge s') t' tr in
  (transaction_id t' <> transaction_id (st_tx s) ->
   (SetProperty cells ea' property value s2).1 = Err SERIALIZATION_ERROR
   /\ (ClearProperties cells ea' s2).1 = Err SERIALIZATION_ERROR)
  /\ (transaction_id t' = transaction_id (st_tx s) ->
      (SetProperty cells ea' property value s2).1 <> Err SERIALIZATION_ERROR
      /\ (ClearProperties cells ea' s2).1 <> Err SERIALIZATION_ERROR).
Proof.
  intros Hok Hgrew [Hcell Hid] Hon' s2.
  destruct (write_Ok_state cells ea s s' Hok)
    as (_ & _ & _ & _ & new & ps & He' & Hnew).
  assert (exists d rest, delta (st_edge s') = d :: rest
            /\ timestamp d = commit_timestamp (st_tx s)) as (d & rest & Hd & Hts).
  { rewrite He' in Hgrew |- *. simpl in *.
    destruct (bookkept_edge_fields cells ea (st_edge s))
      as (_ & _ & _ & _ & Hdl & _).
    destruct new as [|d new]; [done|].
    apply Forall_cons in Hnew as [(k & v & ->) _]. by eexists _, _. }
  split.
  - intros Hne.
    assert (PrepareForWrite cells t' (st_edge s') = false) as Hp.
    { apply PrepareForWrite_false. exists d, rest. rewrite Hts, Hcell.
      split_and!; [done | done | congruence]. }
    by rewrite SetProperty_rejected, ClearProperties_rejected.
  - intros Heq.
    assert (PrepareForWrite cells t' (st_edge s') = true) as Hp.
    { apply PrepareForWrite_permitted. right. exists d, rest.
      split; [done|]. left. by rewrite Hts, Hcell. }
    destruct (SetProperty_cases cells ea' property value s2)
      as [(_ & H) | [(_ & Hp' & H) | [(_ & _ & _ & H) | (_ & _ & _ & r & s3 & H)]]];
      destruct (ClearProperties_cases cells ea' s2)
      as [(_ & H') | [(_ & Hp'' & H') | [(_ & _ & _ & H') | (_ & _ & _ & r' & s3' & H')]]];
      rewrite H, H'; simpl; try done; simpl in *; congruence.
Qed.

Lemma map_items_empty : map_items ∅ = [].
Proof. unfold map_items. by rewrite map_to_list_empty. Qed.

(** X16.  Clearing an edge that has no property: a successful [ClearProperties]
    on an empty property map returns the empty map and links no delta, so the
    chain is as before and the validator decides for every transaction as it
    did before the call (no ownership of the edge is taken); over a committed
    head the call still advances the write-count. *)
Theorem ClearProperties_of_empty cells ea s r s' :
  ClearProperties cells ea s = (Ok r, s') ->
  properties (st_edge s) = ∅ ->
  r = ∅
  /\ delta (st_edge s') = delta (st_edge s)
  /\ properties (st_edge s') = ∅
  /\ (forall t, PrepareForWrite cells t (st_edge s')
               = PrepareForWrite cells t (st_edge s))
  /\ st_trace s' = st_trace s ++ [EvLock; EvClearLive; EvUnlock]
  /\ (forall head rest,
        delta (st_edge s) = head :: rest ->
        (cells (timestamp head) < kTransactionInitialId)%N ->
        num (st_edge s') =
        if (AnchorNum (config_ ea) <? num (st_edge s) + 1)%Z
        then 1%Z else (num (st_edge s) + 1)%Z).
Proof.
  intros Hrun Hempty.
  destruct (ClearProperties_Ok_inv _ _ _ _ _ Hrun) as (Hon & Hp & Hd).
  rewrite ClearProperties_ok in Hrun by done. injection Hrun as <- <-.
  destruct (bookkept_edge_fields cells ea (st_edge s))
    as (_ & _ & _ & _ & Hdl & _).
  rewrite Hempty, map_items_empty. cbn -[bookkept_edge].
  split_and!; try done.
  intros head rest Hhead Hlt.
  destruct (head_committed_true cells (st_edge s) head rest Hhead Hlt) as [Hc _].
  unfold bookkept_edge. by rewrite Hc.
Qed.

(** X17.  Setting a property to the value it already has: the call succeeds like
    any other, still links an undo delta at the chain head (so that the
    caller owns the edge), returns the value, and leaves the live property
    map as it was. *)
Theorem SetProperty_same_value cells ea property value s r s' :
  SetProperty cells ea property value s = (Ok r, s') ->
  (properties (st_edge s) !! property = Some value /\ IsNull value = false)
  \/ (properties (st_edge s) !! property = None /\ value = PVNull) ->
  r = value
  /\ properties (st_edge s') = properties (st_edge s)
  /\ exists d, delta (st_edge s') = d :: delta (st_edge s)
       /\ action d = SET_PROPERTY
       /\ property_key d = property
       /\ property_value d = value.
Proof.
  intros Hrun Hsame.
  destruct (SetProperty_Ok_inv _ _ _ _ _ _ _ Hrun) as (Hon & Hp & Hd).
  rewrite SetProperty_ok in Hrun by done. injection Hrun as <- <-. simpl.
  unfold PropertyStore.GetProperty, PropertyStore.SetProperty.
  destruct Hsame as [[Hk Hnull] | [Hk ->]]; rewrite Hk; simpl.
  - rewrite Hnull. split_and!; [done | by apply insert_id |].
    by eexists.
  - split_and!; [done | by apply delete_id |].
    by eexists.
Qed.

(** X18.  The timestamp a running transaction stamps into its deltas does not
    move while it keeps writing: after a successful write by a running
    transaction, the next write to the edge, with the timestamp cells
    unchanged, computes the same [transaction_st] for its deltas as this one
    did, whether this one has linked deltas (the next one copies it from the
    caller's own head) or none. *)
Theorem stamp_is_stable cells ea s s' :
  (exists property value r, SetProperty cells ea property value s = (Ok r, s'))
  \/ (exists r, ClearProperties cells ea s = (Ok r, s')) ->
  running cells (st_tx s) ->
  overwritten_ts cells (st_edge s') = overwritten_ts cells (st_edge s).
Proof.
  intros Hok [Hcell Hid].
  destruct (write_Ok_state cells ea s s' Hok)
    as (_ & _ & _ & _ & new & ps & -> & Hnew).
  destruct (bookkept_edge_fields cells ea (st_edge s))
    as (_ & _ & _ & _ & Hdl & _ & Hst).
  unfold overwritten_ts at 1. cbn -[bookkept_edge]. rewrite Hst.
  destruct new as [|d new]; [done|].
  apply Forall_cons in Hnew as [(k & v & ->) _]. simpl. rewrite Hcell.
  by replace (kTransactionInitialId <=? transaction_id (st_tx s))%N with true
    by (symmetry; by apply N.leb_le).
Qed.

(** ** [get_transaction_st] *)

Lemma get_transaction_st_loop_filter cells ts chain :
  get_transaction_st_loop cells ts chain =
  match filter (fun d => delta_is_edge d = false) chain with
  | [] => ts
  | d :: _ =>
      if (kTransactionInitialId <=? cells (timestamp d))%N
      then d_transaction_st d else cells (timestamp d)
  end.
Proof.
  induction chain as [|d chain IH]; [done|].
  rewrite filter_cons. simpl. destruct (delta_is_edge d) eqn:Hd.
  - by rewrite decide_False by done.
  - by rewrite decide_True by done.
Qed.

(** X19.  [get_transaction_st] is decided by the first delta of the vertex that is
    not an edge-membership delta (add or remove, in or out): it returns that
    delta's commit timestamp when the delta is committed and the delta's own
    [transaction_st] when it is not; when the chain is empty or holds only
    edge-membership deltas it returns the [transaction_st] of the vertex.
    Edge-membership deltas in front of the chain never change the result. *)
Theorem get_transaction_st_first_non_edge cells v :
  get_transaction_st cells v =
    match filter (fun d => delta_is_edge d = false) (v_delta v) with
    | [] => v_transaction_st v
    | d :: _ =>
        if (kTransactionInitialId <=? cells (timestamp d))%N
        then d_transaction_st d else cells (timestamp d)
    end
  /\ (forall membership ts chain,
        Forall (fun d => delta_is_edge d = true) membership ->
        get_transaction_st_loop cells ts (membership ++ chain)
        = get_transaction_st_loop cells ts chain).
Proof.
  split; [apply get_transaction_st_loop_filter|].
  intros membership ts chain Hall.
  induction Hall as [|d membership Hd _ IH]; [done|]. simpl. by rewrite Hd.
Qed.

(** X20.  [get_transaction_st] computes for a vertex what the writes compute for
    an edge: on a vertex with the [transaction_st] and the chain of an edge
    whose head is not an edge-membership delta, it returns the timestamp a
    successful [SetProperty] or [ClearProperties] on that edge stamps into
    the [transaction_st] of every delta it links. *)
Theorem get_transaction_st_agrees_with_write cells ea s s' v :
  (exists property value r, SetProperty cells ea property value s = (Ok r, s'))
  \/ (exists r, ClearProperties cells ea s = (Ok r, s')) ->
  v_transaction_st v = transaction_st (st_edge s) ->
  v_delta v = delta (st_edge s) ->
  (forall head rest, delta (st_edge s) = head :: rest -> delta_is_edge head = false) ->
  exists new,
    delta (st_edge s') = new ++ delta (st_edge s)
    /\ Forall (fun d => d_transaction_st d = get_transaction_st cells v) new.
Proof.
  intros Hok Hst Hchain Hhead.
  assert (get_transaction_st cells v = overwritten_ts cells (st_edge s)) as ->.
  { unfold get_transaction_st, overwritten_ts. rewrite Hst, Hchain.
    destruct (delta (st_edge s)) as [|head rest]; [done|].
    simpl. by rewrite (Hhead head rest eq_refl). }
  destruct (write_Ok_state cells ea s s' Hok)
    as (_ & _ & _ & _ & new & ps & -> & Hnew).
  destruct (bookkept_edge_fields cells ea (st_edge s))
    as (_ & _ & _ & _ & Hdl & _).
  exists new. split; [done|].
  eapply Forall_impl; [exact Hnew|]. by intros d (k & w & ->).
Qed.

(** ** [VertexAccessor] *)

(** X21.  [operator==] of [VertexAccessor] is an equivalence that looks at the
    vertex and the transaction only (accessors that differ in indices,
    constraints, configuration or include-deleted mode are equal),
    [operator!=] is its negation, and equal accessors have the same hash,
    the same gid and read the same vertex. *)
Theorem VertexAccessor_eq_hash vertices (va vb vc : VertexAccessor) :
  VertexAccessor_eq va va = true
  /\ VertexAccessor_eq va vb = VertexAccessor_eq vb va
  /\ (VertexAccessor_eq va vb = true -> VertexAccessor_eq vb vc = true ->
      VertexAccessor_eq va vc = true)
  /\ VertexAccessor_neq va vb = negb (VertexAccessor_eq va vb)
  /\ (VertexAccessor_eq va vb = true <->
      vertex_ va = vertex_ vb /\ v_transaction_ va = v_transaction_ vb)
  /\ (VertexAccessor_eq va vb = true ->
      VertexAccessor_hash vertices va = VertexAccessor_hash vertices vb
      /\ VertexAccessor_Gid vertices va = VertexAccessor_Gid vertices vb
      /\ getProperties vertices va = getProperties vertices vb
      /\ getTTts vertices va = getTTts vertices vb
      /\ hasdelete vertices va = hasdelete vertices vb
      /\ getInEdges vertices va = getInEdges vertices vb
      /\ getOutEdges vertices va = getOutEdges vertices vb).
Proof.
  unfold VertexAccessor_eq, VertexAccessor_neq, VertexAccessor_hash,
    VertexAccessor_Gid, getProperties, getTTts, hasdelete, getInEdges, getOutEdges.
  split_and!.
  - by rewrite !N.eqb_refl.
  - by rewrite (N.eqb_sym (vertex_ va)), (N.eqb_sym (v_transaction_ va)).
  - rewrite !andb_true_iff, !N.eqb_eq. by intros [-> ->] [-> ->].
  - done.
  - by rewrite andb_true_iff, !N.eqb_eq.
  - rewrite andb_true_iff, !N.eqb_eq. by intros [-> _].
Qed.

(** X22.  The endpoint accessors of one edge accessor are equal exactly when the
    edge is a loop, [from_vertex_ = to_vertex_]: they always share the
    transaction. *)
Theorem endpoints_equal_iff_loop ea :
  VertexAccessor_eq (FromVertex ea) (ToVertex ea) = true <->
  from_vertex_ ea = to_vertex_ ea.
Proof.
  unfold VertexAccessor_eq, FromVertex, ToVertex, VertexAccessor_new. simpl.
  rewrite andb_true_iff, !N.eqb_eq. split; [by intros [? _] | done].
Qed.

End EdgeAccessor.

(** ** The statements at concrete inputs *)

Section Examples.

Import Sample.

Local Abbreviation K := Sample.kTransactionInitialId.

(** T2 writes to the edge whose head delta belongs to the running T1. *)
Lemma C1_first_writer_wins_witness :
  SetProperty K true true cells (accessor (on 2) false) a (PVInt 9) (st pending_t1)
  = (Err SERIALIZATION_ERROR, mkSt pending_t1 tx2 [EvLock; EvUnlock])
  /\ ClearProperties K true true cells (accessor (on 2) false) (st pending_t1)
    = (Err SERIALIZATION_ERROR, mkSt pending_t1 tx2 [EvLock; EvUnlock]).
Proof.
  refine (proj1 (C1_first_writer_wins K true true cells (accessor (on 2) false)
                   a (PVInt 9) (st pending_t1) eq_refl)
            (t1_delta SET_PROPERTY a PVNull) [] eq_refl _ _).
  - vm_compute. discriminate.
  - vm_compute. discriminate.
Defined.

(** The same call through an accessor whose configuration has properties on
    edges turned off: the head delta is uncommitted and belongs to T1, not
    to the caller T2, yet the call returns [PROPERTIES_DISABLED]. *)
Lemma C1_counterexample :
  delta pending_t1 = [t1_delta SET_PROPERTY a PVNull]
  /\ (K <= cells (timestamp (t1_delta SET_PROPERTY a PVNull)))%N
  /\ cells (timestamp (t1_delta SET_PROPERTY a PVNull)) <> transaction_id tx2
  /\ SetProperty K true true cells (accessor off false) a (PVInt 9) (st pending_t1)
     = (Err PROPERTIES_DISABLED, st pending_t1)
  /\ (SetProperty K true true cells (accessor off false) a (PVInt 9)
        (st pending_t1)).1 <> Err SERIALIZATION_ERROR
  /\ (ClearProperties K true true cells (accessor off false) (st pending_t1)).1
     <> Err SERIALIZATION_ERROR.
Proof.
  split_and!; try done; vm_compute; discriminate.
Qed.

(** Four writes with [AnchorNum = 2], three of them over a committed head:
    the last one captures the snapshot. *)
Lemma C2_anchor_cadence_witness :
  exists w,
    run_calls K true true four_writes world = Some (w, 3)
    /\ snapshots (world_txs w) = 1 /\ num (world_edge w) = 1%Z.
Proof.
  destruct (run_calls K true true four_writes world) as [[w k]|] eqn:Hrun;
    [|vm_compute in Hrun; discriminate].
  assert (k = 3) as ->.
  { apply (f_equal (fun r => snd <$> r)) in Hrun. vm_compute in Hrun.
    by injection Hrun. }
  exists w. split; [reflexivity|].
  apply (proj2 (C2_anchor_cadence K true true) 2%Z four_writes world w);
    [reflexivity | lia | reflexivity | | | exact Hrun].
  - intros p t Hpt. unfold world in Hpt. simpl in Hpt.
    apply lookup_insert_Some in Hpt as [[_ <-] | [_ Hpt]]; [done|].
    apply lookup_insert_Some in Hpt as [[_ <-] | [_ Hpt]]; [done|].
    apply lookup_insert_Some in Hpt as [[_ <-] | [_ Hpt]]; [done|].
    by rewrite lookup_empty in Hpt.
  - repeat constructor.
Defined.

(** T2 reads the edge T1 holds: the pending change of [a] is undone. *)
Lemma C3_reads_fold_undo_witness :
  Properties in_past cells (accessor (on 2) false) OLD (st pending_t1)
  = (Ok (<[b := PVString "x"]> ∅),
     mkSt pending_t1 tx2
       [EvLock; EvSnapshot; EvUnlock; EvCallback (t1_delta SET_PROPERTY a PVNull)])
  /\ GetProperty in_past cells (accessor (on 2) false) a OLD (st pending_t1)
    = (Ok PVNull,
       mkSt pending_t1 tx2
         [EvLock; EvSnapshot; EvUnlock; EvCallback (t1_delta SET_PROPERTY a PVNull)]).
Proof.
  pose proof (C3_reads_fold_undo in_past cells (accessor (on 2) false) a OLD
                (st pending_t1) eq_refl) as (Hp & Hg & _).
  split.
  - rewrite Hp. vm_compute. reflexivity.
  - rewrite Hg. vm_compute. reflexivity.
Defined.

(** With properties on edges turned off nothing is reconstructed: the edge
    holds [a] and [b], no delta is to be undone, the replay yields both
    properties, but [Properties] returns the empty map and [GetProperty]
    null, and neither takes the lock. *)
Lemma C3_counterexample :
  replay undo_property (applicable in_past cells tx2 (delta no_delta) OLD)
    (deleted no_delta) (properties no_delta) = (true, false, props)
  /\ props !! a = Some (PVInt 1)
  /\ Properties in_past cells (accessor off false) OLD (st no_delta)
     = (Ok ∅, st no_delta)
  /\ Properties in_past cells (accessor off false) OLD (st no_delta)
     <> (read_result false
          (replay undo_property (applicable in_past cells tx2 (delta no_delta) OLD)
             (deleted no_delta) (properties no_delta)),
        log ([EvLock; EvSnapshot; EvUnlock]
               ++ map EvCallback (applicable in_past cells tx2 (delta no_delta) OLD))
          (st no_delta))
  /\ GetProperty in_past cells (accessor off false) a OLD (st no_delta)
     = (Ok PVNull, st no_delta).
Proof.
  split_and!; try done;
    intros Heq; apply (f_equal (fun r => st_trace r.2)) in Heq; discriminate Heq.
Qed.

(** T2 sets [a] on the committed edge. *)
Lemma C4_undo_then_mutate_witness :
  exists d s',
    SetProperty K true true cells (accessor (on 2) false) a (PVInt 9)
      (st committed_at_5) = (Ok (PVInt 1), s')
    /\ delta (st_edge s') = d :: delta committed_at_5
    /\ action d = SET_PROPERTY /\ property_key d = a /\ property_value d = PVInt 1
    /\ PropertyStore.GetProperty (properties (st_edge s')) a = PVInt 9.
Proof.
  pose (s' := (SetProperty K true true cells (accessor (on 2) false) a (PVInt 9)
                 (st committed_at_5)).2).
  destruct (proj1 (C4_undo_then_mutate K true true cells (accessor (on 2) false)
                     (st committed_at_5)) a (PVInt 9) (PVInt 1) s' eq_refl)
    as (_ & (d & Hd & Ha & Hk & Hv & _) & _ & Hget & _).
  exists d, s'. split_and!; try done.
Defined.

(** T2 started at 6 and sets [a] on the edge whose head delta was committed
    at 5: the delta it creates carries 5, not 6, in [transaction_st]. *)
Lemma C5_counterexample :
  exists d s',
    SetProperty K true true cells (accessor (on 2) false) a (PVInt 9)
      (st committed_at_5) = (Ok (PVInt 1), s')
    /\ delta (st_edge s') = d :: delta committed_at_5
    /\ start_timestamp (st_tx (st committed_at_5)) = 6%N
    /\ d_transaction_st d = 5%N
    /\ d_transaction_st d <> start_timestamp (st_tx (st committed_at_5)).
Proof.
  eexists _, _. split_and!.
  - vm_compute. reflexivity.
  - reflexivity.
  - reflexivity.
  - reflexivity.
  - vm_compute. discriminate.
Qed.

Lemma C5_delta_endpoints_and_st_witness :
  exists new,
    delta (st_edge (SetProperty K true true cells (accessor (on 2) false) a (PVInt 9)
                      (st committed_at_5)).2) = new ++ delta committed_at_5
    /\ Forall (fun d => d_from_gid d = 10%N /\ d_to_gid d = 11%N
                        /\ d_transaction_st d = 5%N) new.
Proof.
  refine (proj1 (C5_delta_endpoints_and_st K true true cells
                   (accessor (on 2) false) (st committed_at_5)
                   (SetProperty K true true cells (accessor (on 2) false) a
                      (PVInt 9) (st committed_at_5)).2 _)).
  left. exists a, (PVInt 9), (PVInt 1). reflexivity.
Defined.

Lemma C6_disabled_witness :
  SetProperty K true true cells (accessor off false) a (PVInt 9) (st pending_t1)
  = (Err PROPERTIES_DISABLED, st pending_t1)
  /\ ClearProperties K true true cells (accessor off false) (st pending_t1)
    = (Err PROPERTIES_DISABLED, st pending_t1)
  /\ GetProperty in_past cells (accessor off false) a NEW (st pending_t1)
    = (Ok PVNull, st pending_t1)
  /\ Properties in_past cells (accessor off false) NEW (st pending_t1)
    = (Ok ∅, st pending_t1).
Proof.
  exact (C6_disabled K true true in_past cells (accessor off false) a (PVInt 9) NEW
           (st pending_t1) eq_refl).
Defined.

(** With properties on edges turned off [GetProperty] does not return
    [PROPERTIES_DISABLED], and neither does [Properties]. *)
Lemma C6_counterexample :
  properties_on_edges (config_ (accessor off false)) = false
  /\ (GetProperty in_past cells (accessor off false) a OLD (st no_delta)).1
     = Ok PVNull
  /\ (GetProperty in_past cells (accessor off false) a OLD (st no_delta)).1
     <> Err PROPERTIES_DISABLED
  /\ (Properties in_past cells (accessor off false) OLD (st no_delta)).1
     <> Err PROPERTIES_DISABLED.
Proof. split_and!; done. Qed.

(** T2 looks at the edge T1 has created and not yet committed. *)
Lemma C7_read_errors_witness :
  (GetProperty in_past cells (accessor (on 2) false) a OLD (st created_by_t1)).1
  = Err NONEXISTENT_OBJECT
  /\ (Properties in_past cells (accessor (on 2) true) OLD (st created_by_t1)).1
    = Err NONEXISTENT_OBJECT.
Proof.
  split.
  - refine (proj1 (C7_read_errors in_past cells (accessor (on 2) false) a OLD
                     (st created_by_t1) false false (PVInt 1) false false props
                     eq_refl _ _) eq_refl); vm_compute; reflexivity.
  - refine (proj1 (proj2 (C7_read_errors in_past cells (accessor (on 2) true) a OLD
                     (st created_by_t1) false false (PVInt 1) false false props
                     eq_refl _ _)) eq_refl); vm_compute; reflexivity.
Defined.

(** With properties on edges turned off the replay of the same edge still
    reports that it does not exist for T2, but [GetProperty] returns a
    successful null and [Properties] a successful empty map. *)
Lemma C7_counterexample :
  ApplyDeltasForRead in_past cells tx2 (delta created_by_t1) OLD
    (GetProperty_callback a)
    (true, deleted created_by_t1,
     PropertyStore.GetProperty (properties created_by_t1) a)
  = (false, false, PVInt 1)
  /\ (GetProperty in_past cells (accessor off false) a OLD (st created_by_t1)).1
     = Ok PVNull
  /\ (GetProperty in_past cells (accessor off false) a OLD (st created_by_t1)).1
     <> Err NONEXISTENT_OBJECT
  /\ (Properties in_past cells (accessor off false) OLD (st created_by_t1)).1
     <> Err NONEXISTENT_OBJECT.
Proof. split_and!; done. Qed.

(** T2 does not see the edge T1 has created, and sees the edge T1 is
    writing to. *)
Lemma C8_IsVisible_witness :
  (IsVisible in_past cells (accessor (on 2) false) OLD (st created_by_t1)).1
  = Ok false
  /\ (IsVisible in_past cells (accessor (on 2) false) OLD (st pending_t1)).1
    = Ok true.
Proof.
  split.
  - destruct (proj1 (C8_IsVisible in_past cells (accessor (on 2) false) OLD
                       (st created_by_t1))) as (b & -> & Hiff).
    f_equal. destruct b; [|reflexivity].
    destruct (proj1 Hiff eq_refl) as [Hex _]. vm_compute in Hex. discriminate Hex.
  - destruct (proj1 (C8_IsVisible in_past cells (accessor (on 2) false) OLD
                       (st pending_t1))) as (b & -> & Hiff).
    f_equal. apply Hiff. split; [|right]; vm_compute; reflexivity.
Defined.

(** The endpoint accessors of an edge accessor in include-deleted mode. *)
Lemma C10_endpoint_accessors_witness :
  for_deleted_ (accessor (on 2) true) = true
  /\ v_for_deleted_ (FromVertex (accessor (on 2) true)) = false
  /\ v_for_deleted_ (ToVertex (accessor (on 2) true)) = false.
Proof.
  destruct (C10_endpoint_accessors (accessor (on 2) true)) as (Hfrom & Hto & _).
  split_and!; [reflexivity | exact Hfrom | exact Hto].
Defined.

Lemma C9_reads_when_disabled_witness :
  GetProperty in_past cells (accessor off false) a OLD (st created_by_t1)
  = (Ok PVNull, st created_by_t1)
  /\ Properties in_past cells (accessor off false) OLD (st created_by_t1)
    = (Ok ∅, st created_by_t1).
Proof.
  exact (C9_reads_when_disabled in_past cells (accessor off false) a OLD
           (st created_by_t1) eq_refl).
Defined.

End Examples.

(** ** The further properties at concrete inputs *)

Section FurtherExamples.

Import Sample.

Local Abbreviation K := Sample.kTransactionInitialId.

Lemma props_no_null : no_null props.
Proof.
  unfold no_null, props.
  apply map_Forall_insert_2; [done|].
  apply map_Forall_insert_2; [done|]. apply map_Forall_empty.
Qed.

(** T2 sets [a] to 9 on the committed edge. *)
Lemma T2_sets_a :
  SetProperty K true true cells (accessor (on 2) false) a (PVInt 9)
    (st committed_at_5)
  = (Ok (PVInt 1),
     (SetProperty K true true cells (accessor (on 2) false) a (PVInt 9)
        (st committed_at_5)).2).
Proof. reflexivity. Qed.

Lemma IsVisible_iff_reads_succeed_witness :
  (IsVisible in_past cells (accessor (on 2) false) OLD (st pending_t1)).1 = Ok true
  <-> exists v,
      (GetProperty in_past cells (accessor (on 2) false) a OLD (st pending_t1)).1
      = Ok v.
Proof.
  exact (proj1 (IsVisible_iff_reads_succeed in_past cells (accessor (on 2) false)
                  a OLD (st pending_t1) eq_refl)).
Defined.

Lemma Properties_returns_no_null_witness :
  no_null (<[b := PVString "x"]> (∅ : gmap N PropertyValue)).
Proof.
  apply (Properties_returns_no_null in_past cells (accessor (on 2) false) OLD
           (st pending_t1)).
  - exact props_no_null.
  - vm_compute. reflexivity.
Defined.

Lemma reads_return_live_state_witness :
  Properties in_past cells (accessor (on 2) false) OLD (st no_delta)
  = (Ok props, log [EvLock; EvSnapshot; EvUnlock] (st no_delta))
  /\ GetProperty in_past cells (accessor (on 2) false) 77 OLD (st no_delta)
    = (Ok PVNull, log [EvLock; EvSnapshot; EvUnlock] (st no_delta)).
Proof.
  destruct (proj1 (reads_return_live_state in_past cells (accessor (on 2) false)
                     77 OLD (st no_delta) eq_refl I) (or_introl eq_refl))
    as (Hp & Hg & _).
  split; [exact Hp | exact Hg].
Defined.

Lemma failed_write_changes_nothing_witness :
  st_edge (SetProperty K true true cells (accessor (on 2) false) a (PVInt 9)
             (st pending_t1)).2 = pending_t1
  /\ st_tx (SetProperty K true true cells (accessor (on 2) false) a (PVInt 9)
              (st pending_t1)).2 = tx2.
Proof.
  destruct (failed_write_changes_nothing K true true cells (accessor (on 2) false)
              a (PVInt 9) (st pending_t1) SERIALIZATION_ERROR
              (SetProperty K true true cells (accessor (on 2) false) a (PVInt 9)
                 (st pending_t1)).2 (or_introl eq_refl))
    as (He & Ht & _).
  split; [exact He | exact Ht].
Defined.

Lemma write_to_deleted_edge_witness :
  (SetProperty K true true cells (accessor (on 2) false) a (PVInt 9)
     (st deleted_edge)).1 = Err DELETED_OBJECT
  /\ (ClearProperties K true true cells (accessor (on 2) false)
        (st deleted_edge)).1 = Err DELETED_OBJECT.
Proof.
  apply (proj1 (write_to_deleted_edge K true true cells (accessor (on 2) false)
                  a (PVInt 9) (st deleted_edge) eq_refl eq_refl)).
  right. exists (committed_delta SET_PROPERTY a PVNull), [].
  split; [reflexivity|]. right. vm_compute. reflexivity.
Defined.

Lemma writes_only_prepend_witness :
  delta committed_at_5 `suffix_of`
    delta (st_edge (SetProperty K true true cells (accessor (on 2) false) a
                      (PVInt 9) (st committed_at_5)).2)
  /\ gid (st_edge (SetProperty K true true cells (accessor (on 2) false) a
                     (PVInt 9) (st committed_at_5)).2) = 42%N.
Proof.
  destruct (writes_only_prepend K true true cells (accessor (on 2) false) a
              (PVInt 9) (st committed_at_5)
              (SetProperty K true true cells (accessor (on 2) false) a (PVInt 9)
                 (st committed_at_5)).2
              (or_introl (ex_intro _ (Ok (PVInt 1)) T2_sets_a)))
    as (Hg & _ & _ & _ & _ & _ & _ & _ & Hsuffix & _).
  split; [exact Hsuffix | exact Hg].
Defined.

Lemma write_count_bounded_witness :
  (num (st_edge (SetProperty K true true cells (accessor (on 2) false) a
                   (PVInt 9) (st committed_at_5)).2) <= Z.max 1 2)%Z.
Proof.
  apply (proj2 (write_count_bounded K true true cells (accessor (on 2) false) a
                  (PVInt 9) (st committed_at_5) _
                  (or_introl (ex_intro _ (Ok (PVInt 1)) T2_sets_a)))).
  vm_compute. discriminate.
Defined.

(** T2 writes again to the edge it already holds. *)
Lemma bookkeeping_only_over_committed_head_witness :
  num (st_edge (SetProperty K true true cells (accessor (on 0) false) b
                  (PVInt 2) (st pending_t2)).2) = 1%Z
  /\ gid_anchor_edge_ (st_tx (SetProperty K true true cells (accessor (on 0) false)
                                b (PVInt 2) (st pending_t2)).2) = ∅.
Proof.
  apply (bookkeeping_only_over_committed_head K true true cells
           (accessor (on 0) false) (st pending_t2)).
  - left. exists b, (PVInt 2), (PVString "x"). reflexivity.
  - right. eexists _, _. split; [reflexivity|]. vm_compute. discriminate.
Defined.

Lemma change_notification_witness :
  prinfEdge_ (st_tx (SetProperty K true true cells (accessor (on 2) false) a
                       (PVInt 9) (st committed_at_5)).2)
  = [mkPrinfEdge 7 42 10 11 5 props].
Proof.
  refine (proj2 (proj2 (change_notification K true true cells
                          (accessor (on 2) false) (st committed_at_5) _
                          (or_introl (ex_intro _ a
                             (ex_intro _ (PVInt 9)
                                (ex_intro _ (PVInt 1) T2_sets_a))))))
            eq_refl _).
  right. eexists _, _. split; [reflexivity|]. vm_compute. reflexivity.
Defined.

(** From the count 1 with [AnchorNum = 2], the second write over a committed
    head captures. *)
Lemma cadence_from_any_count_witness :
  exists w,
    run_calls K true true two_writes counted_once = Some (w, 2)
    /\ snapshots (world_txs w) = 1 /\ num (world_edge w) = 1%Z.
Proof.
  destruct (run_calls K true true two_writes counted_once) as [[w k]|] eqn:Hrun;
    [|vm_compute in Hrun; discriminate].
  assert (k = 2) as ->.
  { apply (f_equal (fun r => snd <$> r)) in Hrun. vm_compute in Hrun.
    by injection Hrun. }
  exists w. split; [reflexivity|].
  apply (proj2 (cadence_from_any_count K true true 2%Z two_writes counted_once w 2
                  eq_refl ltac:(vm_compute; split; discriminate)
                  ltac:(intros p t Hpt; unfold counted_once in Hpt; simpl in Hpt;
                        apply lookup_insert_Some in Hpt as [[_ <-] | [_ Hpt]];
                        [done|];
                        apply lookup_insert_Some in Hpt as [[_ <-] | [_ Hpt]];
                        [done|]; by rewrite lookup_empty in Hpt)
                  ltac:(repeat constructor) Hrun)).
  reflexivity.
Defined.

(** T1, started at 6, reads with the view [OLD] after T2's write. *)
Lemma uncommitted_write_is_undone_witness :
  (Properties in_past cells (accessor (on 2) false) OLD
     (mkSt (st_edge (SetProperty K true true cells (accessor (on 2) false) a
                       (PVInt 9) (st committed_at_5)).2) tx1 [])).1
  = Ok props.
Proof.
  refine (proj1 (uncommitted_write_is_undone K true true in_past cells
                   (accessor (on 2) false) (st committed_at_5) _
                   [mkDelta SET_PROPERTY a (PVInt 1) 3 10 11 5]
                   cells (accessor (on 2) false) OLD tx1 [] a
                   (or_introl (ex_intro _ a
                      (ex_intro _ (PVInt 9) (ex_intro _ (PVInt 1) T2_sets_a))))
                   eq_refl props_no_null eq_refl _ _)).
  - repeat constructor.
  - vm_compute. reflexivity.
Defined.

(** T2 reads its own write with the view [NEW]. *)
Lemma read_your_own_write_witness :
  (GetProperty in_past cells (accessor (on 2) false) a NEW
     (mkSt (st_edge (SetProperty K true true cells (accessor (on 2) false) a
                       (PVInt 9) (st committed_at_5)).2) tx2 [])).1
  = Ok (PVInt 9).
Proof.
  refine (proj1 (read_your_own_write K true true in_past cells
                   (accessor (on 2) false) a (PVInt 9) (st committed_at_5)
                   (PVInt 1) _ cells (accessor (on 2) false) NEW tx2 []
                   T2_sets_a eq_refl _)).
  vm_compute. reflexivity.
Defined.

(** After T2's write, T1 is refused. *)
Lemma first_writer_blocks_others_witness :
  (SetProperty K true true cells (accessor (on 2) false) b (PVInt 0)
     (mkSt (st_edge (SetProperty K true true cells (accessor (on 2) false) a
                       (PVInt 9) (st committed_at_5)).2) tx1 [])).1
  = Err SERIALIZATION_ERROR.
Proof.
  refine (proj1 (proj1 (first_writer_blocks_others K true true cells
                          (accessor (on 2) false) (st committed_at_5) _
                          (accessor (on 2) false) tx1 [] b (PVInt 0)
                          (or_introl (ex_intro _ a
                             (ex_intro _ (PVInt 9)
                                (ex_intro _ (PVInt 1) T2_sets_a))))
                          _ _ eq_refl) _)).
  - vm_compute. discriminate.
  - split; [reflexivity | vm_compute; discriminate].
  - vm_compute. discriminate.
Defined.

Lemma ClearProperties_of_empty_witness :
  delta (st_edge (ClearProperties K true true cells (accessor (on 2) false)
                    (st bare)).2) = delta bare
  /\ num (st_edge (ClearProperties K true true cells (accessor (on 2) false)
                     (st bare)).2) = 1%Z.
Proof.
  destruct (ClearProperties_of_empty K true true cells (accessor (on 2) false)
              (st bare) ∅
              (ClearProperties K true true cells (accessor (on 2) false)
                 (st bare)).2 eq_refl eq_refl)
    as (_ & Hd & _ & _ & _ & Hnum).
  split; [exact Hd|].
  rewrite (Hnum (committed_delta DELETE_OBJECT 0 PVNull) [] eq_refl);
    vm_compute; reflexivity.
Defined.

Lemma SetProperty_same_value_witness :
  properties (st_edge (SetProperty K true true cells (accessor (on 2) false) a
                         (PVInt 1) (st committed_at_5)).2) = props
  /\ length (delta (st_edge (SetProperty K true true cells (accessor (on 2) false)
                               a (PVInt 1) (st committed_at_5)).2)) = 2.
Proof.
  destruct (SetProperty_same_value K true true cells (accessor (on 2) false) a
              (PVInt 1) (st committed_at_5) (PVInt 1)
              (SetProperty K true true cells (accessor (on 2) false) a (PVInt 1)
                 (st committed_at_5)).2 eq_refl
              (or_introl (conj eq_refl eq_refl)))
    as (_ & Hp & d & Hd & _).
  split; [exact Hp|]. rewrite Hd. reflexivity.
Defined.

Lemma stamp_is_stable_witness :
  overwritten_ts K cells
    (st_edge (SetProperty K true true cells (accessor (on 2) false) a (PVInt 9)
                (st committed_at_5)).2) = 5%N.
Proof.
  rewrite (stamp_is_stable K true true cells (accessor (on 2) false)
             (st committed_at_5) _
             (or_introl (ex_intro _ a
                (ex_intro _ (PVInt 9) (ex_intro _ (PVInt 1) T2_sets_a))))).
  - vm_compute. reflexivity.
  - split; [reflexivity | vm_compute; discriminate].
Defined.

Lemma get_transaction_st_agrees_with_write_witness :
  get_transaction_st K cells vertex_like_edge = 5%N
  /\ exists new,
      delta (st_edge (SetProperty K true true cells (accessor (on 2) false) a
                        (PVInt 9) (st committed_at_5)).2)
      = new ++ delta committed_at_5
      /\ Forall (fun d => d_transaction_st d
                          = get_transaction_st K cells vertex_like_edge) new.
Proof.
  split; [vm_compute; reflexivity|].
  apply (get_transaction_st_agrees_with_write K true true cells
           (accessor (on 2) false) (st committed_at_5) _ vertex_like_edge
           (or_introl (ex_intro _ a
              (ex_intro _ (PVInt 9) (ex_intro _ (PVInt 1) T2_sets_a))))
           eq_refl eq_refl).
  intros head rest Hd. injection Hd as <- _. reflexivity.
Defined.

(** The out-edge delta of T1 in front of the chain of vertex 10 is skipped. *)
Lemma get_transaction_st_first_non_edge_witness :
  get_transaction_st K cells vertex = 5%N.
Proof.
  rewrite (proj1 (get_transaction_st_first_non_edge K cells vertex)).
  vm_compute. reflexivity.
Defined.

End FurtherExamples.
